(** * wiki-articles: [search_wiki_article.py]

    A shallow embedding of the module [search_wiki_article] (the classes
    [Config] and [WikiArticles] and the command-line entry point [main]),
    followed by the properties of it that its specification states.

    Python objects that are mutated in place ([Config], [WikiArticles]) live
    in a store and are passed around by address, so that an alias held by the
    caller sees the mutation.  A method is a function from the world before
    the call to an outcome (a returned value or a raised exception) and the
    world after it.  The library [wikipediaapi] is not part of the
    repository: it is a parameter of the development (class
    [wikipediaapi]). *)

From stdpp Require Import gmap strings list fin_maps pretty.
From Stdlib Require Import ZArith.

(** ** Python values and exceptions *)

(** The exceptions that can leave a function of the module. *)
Inductive exn :=
| LibraryError (detail : string)   (* anything [wikipediaapi] raises *)
| SystemExit (code : Z)            (* [sys.exit(code)] *)
| KeyError (key : string)          (* [d[key]] on a missing key *)
| IndexError                       (* [l[i]] out of range *)
| TypeError                        (* an operation on a value of the wrong type *)
| Unreachable.                     (* no run gets there: an address without an
                                      object, a list where [main] formats a str *)

Inductive outcome (A : Type) :=
| Returned (a : A)
| Raised (e : exn).
Arguments Returned {A} a.
Arguments Raised {A} e.

(** The values stored in the result dictionaries: [str], [List[str]], [int]. *)
Inductive value :=
| VStr (s : string)
| VList (l : list string)
| VInt (n : Z).

#[global] Instance value_eq_dec : EqDecision value.
Proof. solve_decision. Defined.

(** A dict display [{k1: v1, ..., kn: vn}]: the items are inserted from left
    to right. *)
Definition py_dict (items : list (string * value)) : gmap string value :=
  foldl (fun d kv => <[kv.1 := kv.2]> d) ∅ items.

(** The slice [l[:stop]] for an integer [stop]: a negative [stop] counts from
    the end, and both ends are clamped to the list. *)
Definition slice_to {A : Type} (stop : Z) (l : list A) : list A :=
  let len := Z.of_nat (length l) in
  let upper := if (stop <? 0)%Z then Z.max 0 (stop + len) else Z.min stop len in
  take (Z.to_nat upper) l.

(** Truth value of an [Optional[int]]: [None] and [0] are false. *)
Definition truthy (limit : option Z) : bool :=
  match limit with
  | None => false
  | Some n => negb (n =? 0)%Z
  end.

(** ** The objects of [wikipediaapi] *)

(** A section of a page, with its subsections. *)
#[warnings="-register-all"]
Inductive WikipediaPageSection :=
| mk_section (title : string) (subsections : list WikipediaPageSection).

Definition section_title (s : WikipediaPageSection) : string :=
  match s with mk_section t _ => t end.

(** The pages that [page.links] and [page.categories] map titles to. *)
Record PageRef := { ref_title : string }.

(** A page as the module reads it.  [page.links] and [page.categories] are
    dicts: here the list of their items, in the dict's order. *)
Record WikipediaPage := {
  page_exists : bool;
  page_title : string;
  page_fullurl : string;
  page_summary : string;
  page_text : string;
  page_categories : list (string * PageRef);
  page_links : list (string * PageRef);
  page_sections : list WikipediaPageSection
}.

(** [d.keys()] and [d.values()] of such a dict. *)
Definition keys {V : Type} (d : list (string * V)) : list string := d.*1.
Definition values {V : Type} (d : list (string * V)) : list V := d.*2.

(** A handle [wikipediaapi.Wikipedia(user_agent=..., language=...)].
    [handle_id] tells two handles apart that were made with the same
    arguments: it is the number of handles made before this one. *)
Record Wikipedia := {
  handle_id : nat;
  handle_user_agent : string;
  handle_language : string
}.

#[global] Instance Wikipedia_eq_dec : EqDecision Wikipedia.
Proof. solve_decision. Defined.

(** The library, as far as the module calls it.  [Wikipedia_raises] is what
    the constructor does with its two arguments ([None]: it returns a handle).
    [page_of] stands for [h.page(title)] together with the calls that the
    module then makes on the page object ([exists()] and the reads of its
    attributes, which the library loads on demand): [inr page] when all of
    them return, [page] holding what they return, and [inl e] when one of
    them raises [e].  A page of which some attributes load and others raise
    is outside the model; what is proved about a page assumes [inr page]. *)
Class wikipediaapi := {
  Wikipedia_raises : string -> string -> option exn;
  page_of : Wikipedia -> string -> exn + WikipediaPage
}.

(** ** The store *)

Definition loc := nat.

(** class Config: one field. *)
Record Config := { language : string }.

(** class WikiArticles: [self.config] is a reference to a [Config] object,
    [self.wiki] the handle. *)
Record WikiArticles := {
  config : loc;
  wiki : Wikipedia
}.

(** The calls that make a handle, [wikipediaapi.Wikipedia(...)], and the
    calls that ask a handle for a page, [h.page(title)], for the record.
    Calls on a page object are not on the record. *)
Inductive call :=
| CallWikipedia (user_agent language : string)
| CallPage (h : Wikipedia) (title : string).

Record World := {
  configs : gmap loc Config;         (* the Config objects *)
  facades : gmap loc WikiArticles;   (* the WikiArticles objects *)
  acquired : nat;                    (* handles made so far *)
  calls : list call;                 (* handles and pages asked for, oldest first *)
  stdout : list string               (* what [print] wrote, one entry per call *)
}.

(** ** Computations *)

Definition M (A : Type) : Type := World -> outcome A * World.

#[global] Instance M_ret : MRet M := fun A a w => (Returned a, w).

#[global] Instance M_bind : MBind M := fun A B k m w =>
  match m w with
  | (Returned a, w') => k a w'
  | (Raised e, w') => (Raised e, w')
  end.

Definition raise {A : Type} (e : exn) : M A := fun w => (Raised e, w).

Definition print (line : string) : M unit := fun w =>
  (Returned tt,
   {| configs := configs w; facades := facades w; acquired := acquired w;
      calls := calls w; stdout := stdout w ++ [line] |}).

(** The world with one more call on the record. *)
Definition record_call (c : call) (w : World) : World :=
  {| configs := configs w; facades := facades w; acquired := acquired w;
     calls := calls w ++ [c]; stdout := stdout w |}.

Definition log (c : call) : M unit := fun w => (Returned tt, record_call c w).

(** Reading and writing the objects. *)
Definition read_config (c : loc) : M Config := fun w =>
  match configs w !! c with
  | Some cfg => (Returned cfg, w)
  | None => (Raised Unreachable, w)
  end.

Definition write_config (c : loc) (cfg : Config) : M unit := fun w =>
  (Returned tt,
   {| configs := <[c := cfg]> (configs w); facades := facades w;
      acquired := acquired w; calls := calls w; stdout := stdout w |}).

Definition new_config (cfg : Config) : M loc := fun w =>
  let c := fresh (dom (configs w)) in
  (Returned c,
   {| configs := <[c := cfg]> (configs w); facades := facades w;
      acquired := acquired w; calls := calls w; stdout := stdout w |}).

Definition read_self (self : loc) : M WikiArticles := fun w =>
  match facades w !! self with
  | Some this => (Returned this, w)
  | None => (Raised Unreachable, w)
  end.

Definition write_self (self : loc) (this : WikiArticles) : M unit := fun w =>
  (Returned tt,
   {| configs := configs w; facades := <[self := this]> (facades w);
      acquired := acquired w; calls := calls w; stdout := stdout w |}).

Definition new_self (this : WikiArticles) : M loc := fun w =>
  let self := fresh (dom (facades w)) in
  (Returned self,
   {| configs := configs w; facades := <[self := this]> (facades w);
      acquired := acquired w; calls := calls w; stdout := stdout w |}).

(** ** The calls into the library *)

Section Library.
Context {api : wikipediaapi}.

(** [wikipediaapi.Wikipedia(user_agent=user_agent, language=language)] *)
Definition Wikipedia_new (user_agent language : string) : M Wikipedia :=
  log (CallWikipedia user_agent language);;
  match Wikipedia_raises user_agent language with
  | Some e => raise e
  | None => fun w =>
      (Returned {| handle_id := acquired w; handle_user_agent := user_agent;
                   handle_language := language |},
       {| configs := configs w; facades := facades w;
          acquired := S (acquired w); calls := calls w; stdout := stdout w |})
  end.

(** [h.page(title)] and the loading of the page's fields (see [page_of]). *)
Definition Wikipedia_page (h : Wikipedia) (title : string) : M WikipediaPage :=
  log (CallPage h title);;
  match page_of h title with
  | inl e => raise e
  | inr page => mret page
  end.

End Library.

(** ** class Config *)

(** [Config(language)]; the default of [language] is ['en']. *)
Definition Config_init (language : string) : M loc :=
  new_config {| language := language |}.

Definition Config_default_language : string := "en".

(** [Config.set_language]: [self.language = language] *)
Definition Config_set_language (self : loc) (language : string) : M unit :=
  _ ← read_config self;
  write_config self {| language := language |}.

(** [Config.to_dict] *)
Definition Config_to_dict (self : loc) : M (gmap string value) :=
  cfg ← read_config self;
  mret (py_dict [("language", VStr (language cfg))]).

(** [Config.__repr__] *)
Definition Config_repr (self : loc) : M string :=
  cfg ← read_config self;
  mret ("Config(language='" +:+ language cfg +:+ "')").

(** ** class WikiArticles *)

Definition USER_AGENT : string := "MyApp/1.0 (your@email.com)".

Section WikiArticles.
Context {api : wikipediaapi}.

(** [WikiArticles(config)]: [config or Config()] is [config] unless it is
    [None] (a [Config] object is always true). *)
Definition WikiArticles_init (config : option loc) : M loc :=
  c ← match config with
      | Some c => mret c
      | None => Config_init Config_default_language
      end;
  cfg ← read_config c;
  h ← Wikipedia_new USER_AGENT (language cfg);
  new_self {| config := c; wiki := h |}.

Definition get_full_article (self : loc) (title : string)
  : M (gmap string value) :=
  this ← read_self self;
  page ← Wikipedia_page (wiki this) title;
  if negb (page_exists page) then
    mret (py_dict [("error", VStr ("Page '" +:+ title +:+ "' does not exist"))])
  else
    mret (py_dict
      [("title", VStr (page_title page));
       ("url", VStr (page_fullurl page));
       ("summary", VStr (page_summary page));
       ("full_text", VStr (page_text page));
       ("categories", VList (ref_title <$> values (page_categories page)));
       ("links", VList (slice_to 20 (keys (page_links page))));
       ("sections", VList (section_title <$> page_sections page))]).

Definition get_summary (self : loc) (title : string)
  : M (gmap string value) :=
  this ← read_self self;
  page ← Wikipedia_page (wiki this) title;
  if negb (page_exists page) then
    mret (py_dict [("error", VStr ("Page '" +:+ title +:+ "' does not exist"))])
  else
    mret (py_dict
      [("title", VStr (page_title page));
       ("summary", VStr (page_summary page))]).

Definition get_sections (self : loc) (title : string)
  : M (gmap string value) :=
  this ← read_self self;
  page ← Wikipedia_page (wiki this) title;
  if negb (page_exists page) then
    mret (py_dict [("error", VStr ("Page '" +:+ title +:+ "' does not exist"))])
  else
    mret (py_dict
      [("title", VStr (page_title page));
       ("sections", VList (section_title <$> page_sections page))]).

Definition get_links (self : loc) (title : string) (limit : option Z)
  : M (gmap string value) :=
  this ← read_self self;
  page ← Wikipedia_page (wiki this) title;
  if negb (page_exists page) then
    mret (py_dict [("error", VStr ("Page '" +:+ title +:+ "' does not exist"))])
  else
    let links := keys (page_links page) in
    let links :=
      match limit with
      | Some n => if truthy limit then slice_to n links else links
      | None => links
      end in
    mret (py_dict
      [("title", VStr (page_title page));
       ("links", VList links);
       ("total_links", VInt (Z.of_nat (length (keys (page_links page)))))]).

(** [WikiArticles.set_language] *)
Definition set_language (self : loc) (language' : string) : M unit :=
  this ← read_self self;
  Config_set_language (config this) language';;
  this ← read_self self;
  cfg ← read_config (config this);
  h ← Wikipedia_new USER_AGENT (language cfg);
  this ← read_self self;
  write_self self {| config := config this; wiki := h |}.

End WikiArticles.

(** ** The entry point *)

(** [d[key]] *)
Definition getitem (d : gmap string value) (key : string) : M value :=
  match d !! key with
  | Some v => mret v
  | None => raise (KeyError key)
  end.

(** [l[i]] *)
Definition index (l : list string) (i : nat) : M string :=
  match l !! i with
  | Some x => mret x
  | None => raise IndexError
  end.

(** [f"{v}"] for a [str] or an [int]. *)
Definition format (v : value) : M string :=
  match v with
  | VStr s => mret s
  | VInt n => mret (pretty n)
  | VList _ => raise Unreachable
  end.

(** A [str] is a sequence of code points; a string here is its UTF-8
    encoding, where each code point is one leading byte followed by
    continuation bytes, the bytes [10xxxxxx] (128 to 191). *)
Definition is_continuation (b : Ascii.ascii) : bool :=
  (128 <=? Ascii.nat_of_ascii b) && (Ascii.nat_of_ascii b <? 192).

Fixpoint code_points (s : string) : nat :=
  match s with
  | EmptyString => 0
  | String b s' => (if is_continuation b then 0 else 1) + code_points s'
  end.

(** [len(v)]; the length of a [str] is its number of code points. *)
Definition len (v : value) : M nat :=
  match v with
  | VStr s => mret (code_points s)
  | VList l => mret (length l)
  | VInt _ => raise TypeError
  end.

(** [sep.join(v[:stop])] for a list [v]. *)
Definition join_slice (sep : string) (v : value) (stop : Z) : M string :=
  match v with
  | VList l => mret (String.concat sep (slice_to stop l))
  | _ => raise Unreachable
  end.

Definition newline : string := String (Ascii.ascii_of_nat 10) EmptyString.

Section Main.
Context {api : wikipediaapi}.

(** [main()], run with [sys.argv = argv]. *)
Definition main (argv : list string) : M unit :=
  (if decide (length argv < 2) then
     print "Usage: python search_wiki_article.py <article_title> [language]";;
     raise (SystemExit 1)
   else mret tt);;
  article_title ← index argv 1;
  language ← (if decide (2 < length argv) then index argv 2 else mret "en");
  config ← Config_init language;
  wiki ← WikiArticles_init (Some config);
  shown ← Config_repr config;
  print ("Configuration: " +:+ shown);;
  article ← get_full_article wiki article_title;
  (if decide ("error" ∈ dom article) then
     message ← getitem article "error" ≫= format;
     print ("Error: " +:+ message);;
     raise (SystemExit 1)
   else mret tt);;
  title ← getitem article "title" ≫= format;
  print ("Title: " +:+ title);;
  url ← getitem article "url" ≫= format;
  print ("URL: " +:+ url);;
  print (newline +:+ "--- FULL ARTICLE ---");;
  full_text ← getitem article "full_text" ≫= format;
  print full_text;;
  print (newline +:+ "--- METADATA ---");;
  characters ← getitem article "full_text" ≫= len;
  print ("Total characters: " +:+ pretty characters);;
  sections ← getitem article "sections";
  joined ← join_slice ", " sections 5;
  print ("Sections: " +:+ joined +:+ "...").

End Main.

(** ** Reading a result *)

(** The value that a run returned under [key]: [None] when the run raised or
    the returned dict has no such key. *)
Definition returned_item (key : string)
    (run : outcome (gmap string value) * World) : option value :=
  match run.1 with
  | Returned d => d !! key
  | Raised _ => None
  end.

(** ** Sample data *)

(** A library that knows one page per language and refuses the empty
    language code. *)
Definition sample_links : list (string * PageRef) :=
  (fun i => let t := "Link" +:+ pretty i in (t, {| ref_title := t |})) <$> seq 0 10.

Definition sample_page (exists_ : bool) (title : string) : WikipediaPage :=
  {| page_exists := exists_;
     page_title := title;
     page_fullurl := "https://en.wikipedia.org/wiki/" +:+ title;
     page_summary := "Python is a programming language.";
     page_text := "Python is a high-level programming language...";
     page_categories :=
       [("Category:Programming languages",
         {| ref_title := "Category:Programming languages" |})];
     page_links := sample_links;
     page_sections := [mk_section "Overview" [mk_section "Etymology" []];
                       mk_section "History" []] |}.

Definition sample_api : wikipediaapi :=
  {| Wikipedia_raises user_agent language :=
       if decide (language = "") then Some (LibraryError "no language") else None;
     page_of h title :=
       if decide (title = "Offline") then inl (LibraryError "timeout")
       else inr (sample_page
                   (bool_decide (title = "Python" ∧ handle_language h = "en")
                    || bool_decide (title = "Gato" ∧ handle_language h = "es"))
                   title) |}.

(** A library whose pages all exist and have 30 links, 7 sections and a
    text with a letter outside ASCII (["a"], e with acute accent, ["b"]). *)
Definition long_links : list (string * PageRef) :=
  (fun i => let t := "Link" +:+ pretty i in (t, {| ref_title := t |})) <$> seq 0 30.

Definition accented_text : string :=
  "a" +:+ String (Ascii.ascii_of_nat 195) (String (Ascii.ascii_of_nat 169) "b").

Definition long_page (title : string) : WikipediaPage :=
  {| page_exists := true;
     page_title := title;
     page_fullurl := "https://en.wikipedia.org/wiki/" +:+ title;
     page_summary := "Summary";
     page_text := accented_text;
     page_categories := [];
     page_links := long_links;
     page_sections :=
       (fun i => mk_section ("Section" +:+ pretty i) []) <$> seq 0 7 |}.

Definition long_api : wikipediaapi :=
  {| Wikipedia_raises user_agent language := None;
     page_of h title := inr (long_page title) |}.

Definition empty_world : World :=
  {| configs := ∅; facades := ∅; acquired := 0; calls := []; stdout := [] |}.

(** The world after [wiki = WikiArticles()]. *)
Definition sample_world : World :=
  (@WikiArticles_init sample_api None empty_world).2.

Definition sample_self : loc :=
  match (@WikiArticles_init sample_api None empty_world).1 with
  | Returned self => self
  | Raised _ => 0
  end.

Definition sample_handle : Wikipedia :=
  {| handle_id := 0; handle_user_agent := USER_AGENT; handle_language := "en" |}.

Definition sample_facade : WikiArticles :=
  {| config := 0; wiki := sample_handle |}.

(** ** A caller's loop *)

(** [for x in xs: f(x)]: the first exception ends the loop. *)
Fixpoint for_each {A : Type} (f : A -> M unit) (xs : list A) : M unit :=
  match xs with
  | [] => mret tt
  | x :: xs' => f x;; for_each f xs'
  end.

(** * Properties *)

(** ** Running a computation *)

Lemma bind_returned {A B : Type} (m : M A) (k : A -> M B) (w w' : World) (a : A) :
  m w = (Returned a, w') -> (m ≫= k) w = k a w'.
Proof. intros Hm. unfold mbind, M_bind. by rewrite Hm. Qed.

Lemma bind_raised {A B : Type} (m : M A) (k : A -> M B) (w w' : World) (e : exn) :
  m w = (Raised e, w') -> (m ≫= k) w = (Raised e, w').
Proof. intros Hm. unfold mbind, M_bind. by rewrite Hm. Qed.

Lemma read_self_at (self : loc) (this : WikiArticles) (w : World) :
  facades w !! self = Some this -> read_self self w = (Returned this, w).
Proof. intros H. unfold read_self. by rewrite H. Qed.

Lemma read_config_at (c : loc) (cfg : Config) (w : World) :
  configs w !! c = Some cfg -> read_config c w = (Returned cfg, w).
Proof. intros H. unfold read_config. by rewrite H. Qed.

Section Fetch.
Context {api : wikipediaapi}.

Lemma Wikipedia_page_fetched (h : Wikipedia) (title : string)
    (page : WikipediaPage) (w : World) :
  page_of h title = inr page ->
  Wikipedia_page h title w = (Returned page, record_call (CallPage h title) w).
Proof. intros H. unfold Wikipedia_page, mbind, M_bind, log. by rewrite H. Qed.

Lemma Wikipedia_page_failed (h : Wikipedia) (title : string) (e : exn) (w : World) :
  page_of h title = inl e ->
  Wikipedia_page h title w = (Raised e, record_call (CallPage h title) w).
Proof. intros H. unfold Wikipedia_page, mbind, M_bind, log. by rewrite H. Qed.

(** The step that the four read operations begin with. *)
Lemma fetch_step {A : Type} (self : loc) (title : string) (this : WikiArticles)
    (page : WikipediaPage) (k : WikipediaPage -> M A) (w : World) :
  facades w !! self = Some this ->
  page_of (wiki this) title = inr page ->
  (this ← read_self self; page ← Wikipedia_page (wiki this) title; k page) w
  = k page (record_call (CallPage (wiki this) title) w).
Proof.
  intros Hself Hpage.
  rewrite (bind_returned _ _ _ _ _ (read_self_at _ _ _ Hself)).
  by rewrite (bind_returned _ _ _ _ _ (Wikipedia_page_fetched _ _ _ _ Hpage)).
Qed.

End Fetch.

Section Reads.
Context {api : wikipediaapi}.

(** C1.  When the library reports that the page fetched for [title] does not
    exist, each of [get_full_article], [get_summary], [get_sections] and
    [get_links] returns (it does not raise) the dict whose only key is
    ['error'] and whose value is ["Page '<title>' does not exist"], a string
    that contains [title] as it was passed. *)
Theorem missing_page_is_error_value (self : loc) (title : string)
    (limit : option Z) (this : WikiArticles) (page : WikipediaPage) (w : World) :
  facades w !! self = Some this ->
  page_of (wiki this) title = inr page ->
  page_exists page = false ->
  Forall (fun run : outcome (gmap string value) * World =>
            exists d : gmap string value,
              run = (Returned d, record_call (CallPage (wiki this) title) w)
              /\ d = {[ "error" := VStr ("Page '" +:+ title +:+ "' does not exist") ]}
              /\ dom d = {[ "error" ]})
    [get_full_article self title w; get_summary self title w;
     get_sections self title w; get_links self title limit w].
Proof.
  intros Hself Hpage Hmissing.
  repeat apply Forall_cons_2; [..|apply Forall_nil_2];
    (eexists; split; [|split; [reflexivity|apply dom_singleton_L]]).
  - unfold get_full_article. rewrite (fetch_step _ _ _ _ _ _ Hself Hpage).
    by rewrite Hmissing.
  - unfold get_summary. rewrite (fetch_step _ _ _ _ _ _ Hself Hpage).
    by rewrite Hmissing.
  - unfold get_sections. rewrite (fetch_step _ _ _ _ _ _ Hself Hpage).
    by rewrite Hmissing.
  - unfold get_links. rewrite (fetch_step _ _ _ _ _ _ Hself Hpage).
    by rewrite Hmissing.
Qed.

(** What each read operation returns for a page that exists. *)
Lemma get_links_existing (self : loc) (title : string) (limit : option Z)
    (this : WikiArticles) (page : WikipediaPage) (w : World) :
  facades w !! self = Some this ->
  page_of (wiki this) title = inr page ->
  page_exists page = true ->
  get_links self title limit w
  = (Returned (py_dict
       [("title", VStr (page_title page));
        ("links", VList (if truthy limit
                         then slice_to (default 0%Z limit) (keys (page_links page))
                         else keys (page_links page)));
        ("total_links", VInt (Z.of_nat (length (keys (page_links page)))))]),
     record_call (CallPage (wiki this) title) w).
Proof.
  intros Hself Hpage Hexists. unfold get_links.
  rewrite (fetch_step _ _ _ _ _ _ Hself Hpage), Hexists.
  by destruct limit.
Qed.

Lemma get_full_article_existing (self : loc) (title : string)
    (this : WikiArticles) (page : WikipediaPage) (w : World) :
  facades w !! self = Some this ->
  page_of (wiki this) title = inr page ->
  page_exists page = true ->
  get_full_article self title w
  = (Returned (py_dict
       [("title", VStr (page_title page));
        ("url", VStr (page_fullurl page));
        ("summary", VStr (page_summary page));
        ("full_text", VStr (page_text page));
        ("categories", VList (ref_title <$> values (page_categories page)));
        ("links", VList (slice_to 20 (keys (page_links page))));
        ("sections", VList (section_title <$> page_sections page))]),
     record_call (CallPage (wiki this) title) w).
Proof.
  intros Hself Hpage Hexists. unfold get_full_article.
  by rewrite (fetch_step _ _ _ _ _ _ Hself Hpage), Hexists.
Qed.

Lemma get_summary_existing (self : loc) (title : string)
    (this : WikiArticles) (page : WikipediaPage) (w : World) :
  facades w !! self = Some this ->
  page_of (wiki this) title = inr page ->
  page_exists page = true ->
  get_summary self title w
  = (Returned (py_dict
       [("title", VStr (page_title page));
        ("summary", VStr (page_summary page))]),
     record_call (CallPage (wiki this) title) w).
Proof.
  intros Hself Hpage Hexists. unfold get_summary.
  by rewrite (fetch_step _ _ _ _ _ _ Hself Hpage), Hexists.
Qed.

End Reads.

(** ** Slices *)

Lemma slice_to_nonneg {A : Type} (stop : Z) (l : list A) :
  (0 <= stop)%Z -> slice_to stop l = take (Z.to_nat stop) l.
Proof.
  intros Hstop. unfold slice_to.
  destruct (Z.ltb_spec stop 0) as [|_]; [lia|].
  destruct (Z.le_ge_cases stop (Z.of_nat (length l))) as [Hle|Hge].
  - by rewrite Z.min_l.
  - rewrite Z.min_r by lia. rewrite Nat2Z.id.
    rewrite !take_ge; [done | lia | lia].
Qed.

Lemma slice_to_neg {A : Type} (stop : Z) (l : list A) :
  (stop < 0)%Z -> slice_to stop l = take (length l - Z.to_nat (- stop)) l.
Proof.
  intros Hstop. unfold slice_to.
  destruct (Z.ltb_spec stop 0) as [_|]; [|lia].
  f_equal. lia.
Qed.

Lemma length_keys {V : Type} (d : list (string * V)) : length (keys d) = length d.
Proof. unfold keys. apply length_fmap. Qed.

Section Links.
Context {api : wikipediaapi}.

(** C2, as amended.  For a page that exists, the ['links'] that
    [get_links(title, limit)] returns are: the first [limit] link titles, in
    the library's order, when [limit] is positive; all of them when [limit]
    is [None] or [0]; and for a negative [limit] the slice [links[:limit]],
    which is all but the last [-limit] of them, not all of them. *)
Theorem get_links_limit (self : loc) (title : string) (limit : option Z)
    (this : WikiArticles) (page : WikipediaPage) (w : World) :
  facades w !! self = Some this ->
  page_of (wiki this) title = inr page ->
  page_exists page = true ->
  returned_item "links" (get_links self title limit w)
  = Some (VList
      match limit with
      | None => keys (page_links page)
      | Some n =>
          if (0 <? n)%Z then take (Z.to_nat n) (keys (page_links page))
          else if (n =? 0)%Z then keys (page_links page)
          else take (length (page_links page) - Z.to_nat (- n))
                    (keys (page_links page))
      end).
Proof.
  intros Hself Hpage Hexists.
  rewrite (get_links_existing _ _ _ _ _ _ Hself Hpage Hexists).
  unfold returned_item, py_dict; simpl. simplify_map_eq. do 2 f_equal.
  destruct limit as [n|]; [simpl|done].
  destruct (Z.ltb_spec 0 n), (Z.eqb_spec n 0); simpl; try lia.
  - apply slice_to_nonneg. lia.
  - done.
  - rewrite <- length_keys. apply slice_to_neg. lia.
Qed.

(** C3.  For a page that exists and any [limit], ['total_links'] is the number
    of links of the page, whatever ['links'] was cut down to; with 10 links
    and [limit=5], ['links'] has 5 entries and ['total_links'] is 10. *)
Theorem get_links_total_links (self : loc) (title : string) (limit : option Z)
    (this : WikiArticles) (page : WikipediaPage) (w : World) :
  facades w !! self = Some this ->
  page_of (wiki this) title = inr page ->
  page_exists page = true ->
  returned_item "total_links" (get_links self title limit w)
  = Some (VInt (Z.of_nat (length (page_links page))))
  /\ (length (page_links page) = 10 ->
      exists links : list string,
        returned_item "links" (get_links self title (Some 5%Z) w)
        = Some (VList links)
        /\ length links = 5
        /\ returned_item "total_links" (get_links self title (Some 5%Z) w)
           = Some (VInt 10)).
Proof.
  intros Hself Hpage Hexists.
  rewrite !(get_links_existing _ _ _ _ _ _ Hself Hpage Hexists).
  unfold returned_item, py_dict; simpl. rewrite length_keys. split.
  - by simplify_map_eq.
  - intros Hten. eexists. split; [by simplify_map_eq|]. split.
    + rewrite slice_to_nonneg by lia. rewrite length_take, length_keys. lia.
    + simplify_map_eq. by rewrite Hten.
Qed.

(** C10.  For a page that exists and a negative [limit = n], the ['links']
    that [get_links] returns are the link titles without the last [-n]
    ([links[:n]]): fewer than all of them as soon as there is one, while
    ['total_links'] still counts them all; with 10 links and [limit=-1],
    ['links'] has 9 entries and ['total_links'] is 10. *)
Theorem get_links_negative_limit (self : loc) (title : string) (n : Z)
    (this : WikiArticles) (page : WikipediaPage) (w : World) :
  facades w !! self = Some this ->
  page_of (wiki this) title = inr page ->
  page_exists page = true ->
  (n < 0)%Z ->
  exists links : list string,
    returned_item "links" (get_links self title (Some n) w) = Some (VList links)
    /\ links = take (length (page_links page) - Z.to_nat (- n))
                    (keys (page_links page))
    /\ length links = length (page_links page) - Z.to_nat (- n)
    /\ (page_links page <> [] -> links <> keys (page_links page))
    /\ returned_item "total_links" (get_links self title (Some n) w)
       = Some (VInt (Z.of_nat (length (page_links page))))
    /\ (length (page_links page) = 10 -> n = (-1)%Z -> length links = 9).
Proof.
  intros Hself Hpage Hexists Hn.
  rewrite !(get_links_existing _ _ _ _ _ _ Hself Hpage Hexists).
  unfold returned_item, py_dict; simpl.
  destruct (Z.eqb_spec n 0) as [|_]; [lia|]; simpl.
  rewrite slice_to_neg, !length_keys by done.
  eexists. split; [by simplify_map_eq|]. split; [done|].
  assert (Hlen : length (take (length (page_links page) - Z.to_nat (- n))
                          (keys (page_links page)))
                 = length (page_links page) - Z.to_nat (- n)).
  { rewrite length_take, length_keys. lia. }
  split; [done|]. split; [|split].
  - intros Hne Heq. rewrite Heq, length_keys in Hlen.
    destruct (page_links page); [done|]. simpl in Hlen. lia.
  - by simplify_map_eq.
  - intros Hten ->. rewrite Hlen, Hten. reflexivity.
Qed.

(** C4.  For a page that exists, the ['links'] of [get_full_article] are the
    first 20 link titles in the order the library gives them, as they come:
    entry [i] of the result is entry [i] of the page's link titles for every
    [i < 20], and there are [min 20 (number of links)] of them. *)
Theorem get_full_article_links (self : loc) (title : string)
    (this : WikiArticles) (page : WikipediaPage) (w : World) :
  facades w !! self = Some this ->
  page_of (wiki this) title = inr page ->
  page_exists page = true ->
  exists links : list string,
    returned_item "links" (get_full_article self title w) = Some (VList links)
    /\ links = take 20 (keys (page_links page))
    /\ links = take 20 ((page_links page).*1)
    /\ (forall i : nat, i < 20 -> links !! i = (page_links page).*1 !! i)
    /\ (forall i : nat, i < 20 -> links !! i = keys (page_links page) !! i)
    /\ length links = 20 `min` length (page_links page).
Proof.
  intros Hself Hpage Hexists.
  rewrite (get_full_article_existing _ _ _ _ _ Hself Hpage Hexists).
  unfold returned_item, py_dict; simpl.
  rewrite (slice_to_nonneg 20) by lia.
  eexists. split; [by simplify_map_eq|]. split; [done|]. split; [done|].
  split; [|split].
  - intros i Hi. by apply lookup_take_lt.
  - intros i Hi. by apply lookup_take_lt.
  - by rewrite length_take, length_keys.
Qed.

(** C5.  For a page that exists, [get_summary] returns a dict with exactly
    the two keys ['title'] and ['summary'], which hold the page's title and
    the page's summary. *)
Theorem get_summary_two_keys (self : loc) (title : string)
    (this : WikiArticles) (page : WikipediaPage) (w : World) :
  facades w !! self = Some this ->
  page_of (wiki this) title = inr page ->
  page_exists page = true ->
  exists d : gmap string value,
    get_summary self title w
    = (Returned d, record_call (CallPage (wiki this) title) w)
    /\ dom d = {[ "title"; "summary" ]}
    /\ size d = 2
    /\ d !! "title" = Some (VStr (page_title page))
    /\ d !! "summary" = Some (VStr (page_summary page)).
Proof.
  intros Hself Hpage Hexists.
  rewrite (get_summary_existing _ _ _ _ _ Hself Hpage Hexists).
  eexists. split; [done|]. unfold py_dict; simpl. split; [|split; [|split]].
  - rewrite !dom_insert_L, dom_empty_L. set_solver.
  - rewrite !map_size_insert_None; [done|done|].
    by rewrite lookup_insert_ne.
  - by simplify_map_eq.
  - by simplify_map_eq.
Qed.

End Links.

(** ** Configuration and language *)

(** C7.  [Config(language=X).to_dict()] is [{'language': X}] for every string
    [X], empty or not, known as a language code or not: the constructor makes
    a new object that stores [X] as it is. *)
Theorem Config_round_trip (X : string) (w : World) :
  exists c : loc,
    configs w !! c = None
    /\ Config_init X w
       = (Returned c,
          {| configs := <[c := {| language := X |}]> (configs w);
             facades := facades w; acquired := acquired w;
             calls := calls w; stdout := stdout w |})
    /\ (Config_init X ≫= Config_to_dict) w
       = (Returned {[ "language" := VStr X ]}, (Config_init X w).2).
Proof.
  exists (fresh (dom (configs w))). split; [|split].
  - apply not_elem_of_dom, is_fresh.
  - reflexivity.
  - unfold Config_init, new_config, Config_to_dict, read_config, mbind, M_bind.
    simpl. by rewrite lookup_insert_eq.
Qed.

Section Language.
Context {api : wikipediaapi}.

Lemma Config_set_language_run (c : loc) (cfg : Config) (code : string) (w : World) :
  configs w !! c = Some cfg ->
  Config_set_language c code w
  = (Returned tt,
     {| configs := <[c := {| language := code |}]> (configs w);
        facades := facades w; acquired := acquired w;
        calls := calls w; stdout := stdout w |}).
Proof.
  intros Hc. unfold Config_set_language.
  by rewrite (bind_returned _ _ _ _ _ (read_config_at _ _ _ Hc)).
Qed.

(** [set_language] when the library's constructor returns a handle. *)
Lemma set_language_run (self : loc) (this : WikiArticles) (cfg : Config)
    (code : string) (w : World) :
  facades w !! self = Some this ->
  configs w !! config this = Some cfg ->
  Wikipedia_raises USER_AGENT code = None ->
  set_language self code w
  = (Returned tt,
     {| configs := <[config this := {| language := code |}]> (configs w);
        facades :=
          <[self := {| config := config this;
                       wiki := {| handle_id := acquired w;
                                  handle_user_agent := USER_AGENT;
                                  handle_language := code |} |}]> (facades w);
        acquired := S (acquired w);
        calls := calls w ++ [CallWikipedia USER_AGENT code];
        stdout := stdout w |}).
Proof.
  intros Hself Hcfg Hok. unfold set_language.
  rewrite (bind_returned _ _ _ _ _ (read_self_at _ _ _ Hself)).
  rewrite (bind_returned _ _ _ _ _ (Config_set_language_run _ _ _ _ Hcfg)).
  unfold read_self, read_config, Wikipedia_new, write_self, log, record_call,
    mbind, M_bind; simpl.
  rewrite Hself; simpl. rewrite lookup_insert_eq; simpl. rewrite Hok; simpl.
  by rewrite Hself.
Qed.

(** [set_language] when the library's constructor raises. *)
Lemma set_language_raised (self : loc) (this : WikiArticles) (cfg : Config)
    (code : string) (e : exn) (w : World) :
  facades w !! self = Some this ->
  configs w !! config this = Some cfg ->
  Wikipedia_raises USER_AGENT code = Some e ->
  set_language self code w
  = (Raised e,
     {| configs := <[config this := {| language := code |}]> (configs w);
        facades := facades w;
        acquired := acquired w;
        calls := calls w ++ [CallWikipedia USER_AGENT code];
        stdout := stdout w |}).
Proof.
  intros Hself Hcfg Hraises. unfold set_language.
  rewrite (bind_returned _ _ _ _ _ (read_self_at _ _ _ Hself)).
  rewrite (bind_returned _ _ _ _ _ (Config_set_language_run _ _ _ _ Hcfg)).
  unfold read_self, read_config, Wikipedia_new, write_self, log, record_call,
    mbind, M_bind, raise; simpl.
  rewrite Hself; simpl. rewrite lookup_insert_eq; simpl. by rewrite Hraises.
Qed.

(** Which handle a read operation fetches through. *)
Lemma reads_use_current_handle (self : loc) (title : string) (limit : option Z)
    (this : WikiArticles) (w : World) :
  facades w !! self = Some this ->
  Forall (fun run : outcome (gmap string value) * World =>
            run.2 = record_call (CallPage (wiki this) title) w)
    [get_full_article self title w; get_summary self title w;
     get_sections self title w; get_links self title limit w].
Proof.
  intros Hself.
  repeat apply Forall_cons_2; [..|apply Forall_nil_2].
  all: unfold get_full_article, get_summary, get_sections, get_links.
  all: rewrite (bind_returned _ _ _ _ _ (read_self_at _ _ _ Hself)).
  all: destruct (page_of (wiki this) title) as [e|page] eqn:Hpage.
  all: try by rewrite (bind_raised _ _ _ _ _ (Wikipedia_page_failed _ _ _ _ Hpage)).
  all: rewrite (bind_returned _ _ _ _ _ (Wikipedia_page_fetched _ _ _ _ Hpage)).
  all: by destruct (page_exists page).
Qed.

End Language.

Section Facade.
Context {api : wikipediaapi}.

(** A read operation changes nothing in the world but the record of calls. *)
Lemma reads_only_record (self : loc) (title : string) (limit : option Z) (w : World) :
  Forall (fun run : outcome (gmap string value) * World =>
            run.2 = w \/ exists c : call, run.2 = record_call c w)
    [get_full_article self title w; get_summary self title w;
     get_sections self title w; get_links self title limit w].
Proof.
  destruct (facades w !! self) as [this|] eqn:Hself.
  - eapply Forall_impl;
      [apply (reads_use_current_handle self title limit this w Hself)|].
    intros run Hrun. right. eexists. exact Hrun.
  - repeat apply Forall_cons_2; [..|apply Forall_nil_2]; left.
    all: unfold get_full_article, get_summary, get_sections, get_links.
    all: unfold read_self, mbind, M_bind; by rewrite Hself.
Qed.

(** C6.  [set_language(code)] on the facade first stores [code] in the
    facade's [Config] object, so that [to_dict()] on that object gives
    [{'language': code}] from then on, and this whether or not the library's
    constructor then raises; it then asks the library for a new handle with
    the language read back from the object.  When the constructor returns,
    the facade holds that new handle, whose language is [code], and every
    read operation made while the facade holds it fetches through it. *)
Theorem set_language_rebinds (self : loc) (this : WikiArticles) (cfg : Config)
    (code : string) (w : World) :
  facades w !! self = Some this ->
  configs w !! config this = Some cfg ->
  configs (set_language self code w).2 !! config this
  = Some {| language := code |}
  /\ Config_to_dict (config this) (set_language self code w).2
     = (Returned {[ "language" := VStr code ]}, (set_language self code w).2)
  /\ calls (set_language self code w).2
     = calls w ++ [CallWikipedia USER_AGENT code]
  /\ (Wikipedia_raises USER_AGENT code = None ->
      exists h : Wikipedia,
        h = {| handle_id := acquired w; handle_user_agent := USER_AGENT;
               handle_language := code |}
        /\ (set_language self code w).1 = Returned tt
        /\ facades (set_language self code w).2 !! self
           = Some {| config := config this; wiki := h |}
        /\ acquired (set_language self code w).2 = S (acquired w)
        /\ forall (title : string) (limit : option Z) (w' : World),
             facades w' !! self = facades (set_language self code w).2 !! self ->
             Forall (fun run : outcome (gmap string value) * World =>
                       run.2 = record_call (CallPage h title) w')
               [get_full_article self title w'; get_summary self title w';
                get_sections self title w'; get_links self title limit w'])
  /\ (forall e : exn,
        Wikipedia_raises USER_AGENT code = Some e ->
        (set_language self code w).1 = Raised e
        /\ facades (set_language self code w).2 = facades w
        /\ acquired (set_language self code w).2 = acquired w).
Proof.
  intros Hself Hcfg.
  destruct (Wikipedia_raises USER_AGENT code) as [e|] eqn:Hlib.
  - rewrite (set_language_raised _ _ _ _ _ _ Hself Hcfg Hlib); simpl.
    split; [apply lookup_insert_eq|]. split; [|split; [done|split]].
    + unfold Config_to_dict, read_config, mbind, M_bind; simpl.
      by rewrite lookup_insert_eq.
    + done.
    + by intros e' [= <-].
  - rewrite (set_language_run _ _ _ _ _ Hself Hcfg Hlib); simpl.
    split; [apply lookup_insert_eq|]. split; [|split; [done|split]].
    + unfold Config_to_dict, read_config, mbind, M_bind; simpl.
      by rewrite lookup_insert_eq.
    + intros _. eexists. split; [reflexivity|]. split; [done|].
      split; [apply lookup_insert_eq|]. split; [done|].
      intros title limit w' Hw'. rewrite lookup_insert_eq in Hw'.
      by apply (reads_use_current_handle self title limit _ w' Hw').
    + done.
Qed.

(** C9.  A read operation leaves the objects as they were: after
    [get_full_article], [get_summary], [get_sections] or [get_links], whatever
    the page and whatever the outcome, every [Config] object and every facade
    (its reference to its [Config] and its handle) is what it was before, and
    no handle was made.  [set_language] is the method that changes them: it
    changes the [Config] object when the code is a new one, and the facade's
    handle when the library gives it one. *)
Theorem reads_leave_state (self : loc) (title : string) (limit : option Z)
    (w : World) :
  Forall (fun run : outcome (gmap string value) * World =>
            configs run.2 = configs w
            /\ facades run.2 = facades w
            /\ acquired run.2 = acquired w)
    [get_full_article self title w; get_summary self title w;
     get_sections self title w; get_links self title limit w]
  /\ forall (this : WikiArticles) (cfg : Config) (code : string),
       facades w !! self = Some this ->
       configs w !! config this = Some cfg ->
       (language cfg <> code ->
        configs (set_language self code w).2 <> configs w)
       /\ (Wikipedia_raises USER_AGENT code = None ->
           handle_id (wiki this) < acquired w ->
           facades (set_language self code w).2 <> facades w).
Proof.
  split.
  - eapply Forall_impl; [apply reads_only_record|].
    intros run [->|[c ->]]; done.
  - intros this cfg code Hself Hcfg. split.
    + intros Hnew Heq.
      assert (Hat : configs (set_language self code w).2 !! config this
                    = Some {| language := code |}).
      { destruct (Wikipedia_raises USER_AGENT code) as [e|] eqn:Hlib.
        - rewrite (set_language_raised _ _ _ _ _ _ Hself Hcfg Hlib); simpl.
          apply lookup_insert_eq.
        - rewrite (set_language_run _ _ _ _ _ Hself Hcfg Hlib); simpl.
          apply lookup_insert_eq. }
      rewrite Heq, Hcfg in Hat. apply Hnew. by injection Hat as ->.
    + intros Hlib Hid Heq.
      rewrite (set_language_run _ _ _ _ _ Hself Hcfg Hlib) in Heq; simpl in Heq.
      assert (Hat : facades w !! self
                    = Some {| config := config this;
                              wiki := {| handle_id := acquired w;
                                         handle_user_agent := USER_AGENT;
                                         handle_language := code |} |}).
      { rewrite <- Heq at 1. apply lookup_insert_eq. }
      rewrite Hself in Hat. injection Hat as Hthis.
      rewrite Hthis in Hid; simpl in Hid. lia.
Qed.

End Facade.

(** ** The entry point *)

Section Entry.
Context {api : wikipediaapi}.

Lemma main_usage (argv : list string) (w : World) :
  length argv < 2 ->
  main argv w
  = (Raised (SystemExit 1),
     {| configs := configs w; facades := facades w; acquired := acquired w;
        calls := calls w;
        stdout := stdout w
          ++ ["Usage: python search_wiki_article.py <article_title> [language]"] |}).
Proof.
  intros Hargv. unfold main.
  destruct (decide (length argv < 2)); [reflexivity|lia].
Qed.

Lemma WikiArticles_init_run (c : loc) (cfg : Config) (w : World) :
  configs w !! c = Some cfg ->
  Wikipedia_raises USER_AGENT (language cfg) = None ->
  WikiArticles_init (Some c) w
  = (Returned (fresh (dom (facades w))),
     {| configs := configs w;
        facades :=
          <[fresh (dom (facades w)) :=
              {| config := c;
                 wiki := {| handle_id := acquired w;
                            handle_user_agent := USER_AGENT;
                            handle_language := language cfg |} |}]> (facades w);
        acquired := S (acquired w);
        calls := calls w ++ [CallWikipedia USER_AGENT (language cfg)];
        stdout := stdout w |}).
Proof.
  intros Hc Hlib. unfold WikiArticles_init.
  erewrite bind_returned by reflexivity.
  rewrite (bind_returned _ _ _ _ _ (read_config_at _ _ _ Hc)).
  unfold Wikipedia_new, new_self, log, record_call, mbind, M_bind; simpl.
  by rewrite Hlib.
Qed.

Lemma WikiArticles_init_raised (c : loc) (cfg : Config) (e : exn) (w : World) :
  configs w !! c = Some cfg ->
  Wikipedia_raises USER_AGENT (language cfg) = Some e ->
  WikiArticles_init (Some c) w
  = (Raised e, record_call (CallWikipedia USER_AGENT (language cfg)) w).
Proof.
  intros Hc Hlib. unfold WikiArticles_init.
  erewrite bind_returned by reflexivity.
  rewrite (bind_returned _ _ _ _ _ (read_config_at _ _ _ Hc)).
  unfold Wikipedia_new, new_self, log, mbind, M_bind, raise; simpl.
  by rewrite Hlib.
Qed.

(** The first steps of [main] with a title on the command line: the
    arguments are read and the [Config] object is made. *)
Ltac main_begin prog title rest :=
  unfold main;
  destruct (decide (length (prog :: title :: rest) < 2)) as [Hlt|_];
    [simpl in Hlt; lia|];
  do 2 (erewrite bind_returned by reflexivity);
  erewrite (bind_returned _ _ _ _ (default "en" (head rest)))
    by (destruct rest; reflexivity);
  erewrite bind_returned by reflexivity.

Lemma main_constructor_raised (prog title lang : string) (rest : list string)
    (e : exn) (w : World) :
  lang = default "en" (head rest) ->
  Wikipedia_raises USER_AGENT lang = Some e ->
  main (prog :: title :: rest) w
  = (Raised e,
     {| configs := <[fresh (dom (configs w)) := {| language := lang |}]> (configs w);
        facades := facades w;
        acquired := acquired w;
        calls := calls w ++ [CallWikipedia USER_AGENT lang];
        stdout := stdout w |}).
Proof.
  intros -> Hlib. main_begin prog title rest.
  erewrite bind_raised
    by (erewrite WikiArticles_init_raised;
        [reflexivity|apply lookup_insert_eq|done]).
  reflexivity.
Qed.

Lemma full_article_has_no_error (page : WikipediaPage) (items : gmap string value) :
  items = py_dict
      [("title", VStr (page_title page));
       ("url", VStr (page_fullurl page));
       ("summary", VStr (page_summary page));
       ("full_text", VStr (page_text page));
       ("categories", VList (ref_title <$> values (page_categories page)));
       ("links", VList (slice_to 20 (keys (page_links page))));
       ("sections", VList (section_title <$> page_sections page))] ->
  ("error" ∉ dom items)
  /\ items !! "title" = Some (VStr (page_title page))
  /\ items !! "url" = Some (VStr (page_fullurl page))
  /\ items !! "full_text" = Some (VStr (page_text page))
  /\ items !! "sections" = Some (VList (section_title <$> page_sections page)).
Proof.
  intros ->. unfold py_dict; simpl. split.
  - apply not_elem_of_dom. by repeat (rewrite lookup_insert_ne by done).
  - repeat split; by repeat (rewrite lookup_insert_ne by done).
Qed.

Lemma main_fetch_raised (prog title lang : string) (rest : list string)
    (h : Wikipedia) (e : exn) (w : World) :
  lang = default "en" (head rest) ->
  h = {| handle_id := acquired w; handle_user_agent := USER_AGENT;
         handle_language := lang |} ->
  Wikipedia_raises USER_AGENT lang = None ->
  page_of h title = inl e ->
  main (prog :: title :: rest) w
  = (Raised e,
     {| configs := <[fresh (dom (configs w)) := {| language := lang |}]> (configs w);
        facades := <[fresh (dom (facades w)) :=
                       {| config := fresh (dom (configs w)); wiki := h |}]> (facades w);
        acquired := S (acquired w);
        calls := (calls w ++ [CallWikipedia USER_AGENT lang]) ++ [CallPage h title];
        stdout := stdout w ++ ["Configuration: Config(language='" +:+ lang +:+ "')"] |}).
Proof.
  intros -> -> Hlib Hpage. main_begin prog title rest.
  erewrite bind_returned
    by (erewrite WikiArticles_init_run;
        [reflexivity|apply lookup_insert_eq|done]).
  erewrite bind_returned
    by (unfold Config_repr; erewrite bind_returned;
        [reflexivity|apply read_config_at, lookup_insert_eq]).
  erewrite bind_returned by reflexivity.
  erewrite bind_raised.
  2:{ unfold get_full_article.
      erewrite bind_returned by (apply read_self_at, lookup_insert_eq).
      erewrite bind_raised by (apply Wikipedia_page_failed, Hpage).
      reflexivity. }
  reflexivity.
Qed.

Lemma main_not_found (prog title lang : string) (rest : list string)
    (h : Wikipedia) (page : WikipediaPage) (w : World) :
  lang = default "en" (head rest) ->
  h = {| handle_id := acquired w; handle_user_agent := USER_AGENT;
         handle_language := lang |} ->
  Wikipedia_raises USER_AGENT lang = None ->
  page_of h title = inr page ->
  page_exists page = false ->
  main (prog :: title :: rest) w
  = (Raised (SystemExit 1),
     {| configs := <[fresh (dom (configs w)) := {| language := lang |}]> (configs w);
        facades := <[fresh (dom (facades w)) :=
                       {| config := fresh (dom (configs w)); wiki := h |}]> (facades w);
        acquired := S (acquired w);
        calls := (calls w ++ [CallWikipedia USER_AGENT lang]) ++ [CallPage h title];
        stdout := (stdout w ++ ["Configuration: Config(language='" +:+ lang +:+ "')"])
                  ++ ["Error: Page '" +:+ title +:+ "' does not exist"] |}).
Proof.
  intros -> -> Hlib Hpage Hmissing. main_begin prog title rest.
  erewrite bind_returned
    by (erewrite WikiArticles_init_run;
        [reflexivity|apply lookup_insert_eq|done]).
  erewrite bind_returned
    by (unfold Config_repr; erewrite bind_returned;
        [reflexivity|apply read_config_at, lookup_insert_eq]).
  erewrite bind_returned by reflexivity.
  erewrite bind_returned.
  2:{ unfold get_full_article.
      erewrite fetch_step; [|apply lookup_insert_eq|exact Hpage].
      rewrite Hmissing. reflexivity. }
  unfold py_dict; simpl.
  destruct (decide ("error" ∈ dom (<["error" := VStr ("Page '" +:+ title +:+ "' does not exist")]> (∅ : gmap string value)))) as [_|Hout].
  2:{ exfalso. apply Hout. rewrite dom_insert_L. set_solver. }
  erewrite bind_raised; [reflexivity|].
  erewrite bind_returned
    by (unfold getitem, mbind, M_bind; rewrite lookup_insert_eq; reflexivity).
  reflexivity.
Qed.

Lemma main_found (prog title lang : string) (rest : list string)
    (h : Wikipedia) (page : WikipediaPage) (w : World) :
  lang = default "en" (head rest) ->
  h = {| handle_id := acquired w; handle_user_agent := USER_AGENT;
         handle_language := lang |} ->
  Wikipedia_raises USER_AGENT lang = None ->
  page_of h title = inr page ->
  page_exists page = true ->
  main (prog :: title :: rest) w
  = (Returned tt,
     {| configs := <[fresh (dom (configs w)) := {| language := lang |}]> (configs w);
        facades := <[fresh (dom (facades w)) :=
                       {| config := fresh (dom (configs w)); wiki := h |}]> (facades w);
        acquired := S (acquired w);
        calls := (calls w ++ [CallWikipedia USER_AGENT lang]) ++ [CallPage h title];
        stdout := stdout w ++
          ["Configuration: Config(language='" +:+ lang +:+ "')";
           "Title: " +:+ page_title page;
           "URL: " +:+ page_fullurl page;
           newline +:+ "--- FULL ARTICLE ---";
           page_text page;
           newline +:+ "--- METADATA ---";
           "Total characters: " +:+ pretty (code_points (page_text page));
           "Sections: "
             +:+ String.concat ", " (slice_to 5 (section_title <$> page_sections page))
             +:+ "..."] |}).
Proof.
  intros -> -> Hlib Hpage Hexists. main_begin prog title rest.
  erewrite bind_returned
    by (erewrite WikiArticles_init_run;
        [reflexivity|apply lookup_insert_eq|done]).
  erewrite bind_returned
    by (unfold Config_repr; erewrite bind_returned;
        [reflexivity|apply read_config_at, lookup_insert_eq]).
  erewrite bind_returned by reflexivity.
  erewrite bind_returned
    by (apply get_full_article_existing;
        [apply lookup_insert_eq|exact Hpage|exact Hexists]).
  edestruct full_article_has_no_error
    as (Herror & Htitle & Hurl & Htext & Hsections); [reflexivity|].
  destruct (decide ("error" ∈ dom _)) as [Hin|_]; [by destruct Herror|].
  erewrite bind_returned by reflexivity.
  unfold getitem, mbind, M_bind.
  rewrite Htitle, Hurl, Htext, Hsections; simpl.
  unfold print; simpl. do 2 f_equal.
  by rewrite <- !app_assoc.
Qed.

(** C8.  [main] exits with code 1 after printing the usage line when
    [sys.argv] holds no title.  With a title, the language is [sys.argv[2]],
    or ['en'] when there is no such argument: a [Config] object is made with
    it and the library is asked for a handle for it.  When the page then
    fetched does not exist, [main] exits with code 1 and the last line it
    printed is ["Error: "] followed by the message. *)
Theorem main_exit_codes (argv : list string) (w : World) :
  (length argv < 2 ->
   (main argv w).1 = Raised (SystemExit 1)
   /\ stdout (main argv w).2
      = stdout w
        ++ ["Usage: python search_wiki_article.py <article_title> [language]"])
  /\ (forall (title lang : string) (h : Wikipedia) (page : WikipediaPage),
        argv !! 1 = Some title ->
        lang = default "en" (argv !! 2) ->
        h = {| handle_id := acquired w; handle_user_agent := USER_AGENT;
               handle_language := lang |} ->
        Wikipedia_raises USER_AGENT lang = None ->
        page_of h title = inr page ->
        page_exists page = false ->
        (main argv w).1 = Raised (SystemExit 1)
        /\ stdout (main argv w).2
           = stdout w
             ++ ["Configuration: Config(language='" +:+ lang +:+ "')";
                 "Error: " +:+ "Page '" +:+ title +:+ "' does not exist"])
  /\ (forall title : string,
        argv !! 1 = Some title ->
        exists (c : loc) (later : list call),
          configs w !! c = None
          /\ configs (main argv w).2 !! c
             = Some {| language := default "en" (argv !! 2) |}
          /\ calls (main argv w).2
             = calls w
               ++ CallWikipedia USER_AGENT (default "en" (argv !! 2)) :: later).
Proof.
  split; [|split].
  - intros Hargv. by rewrite (main_usage _ _ Hargv).
  - intros title lang h page Htitle Hlang Hh Hlib Hpage Hmissing.
    destruct argv as [|prog [|title' rest]]; try done.
    injection Htitle as ->.
    assert (Hrest : lang = default "en" (head rest)) by by destruct rest.
    rewrite (main_not_found _ _ _ _ _ _ _ Hrest Hh Hlib Hpage Hmissing); simpl.
    split; [done|]. by rewrite <- app_assoc.
  - intros title Htitle.
    destruct argv as [|prog [|title' rest]]; try done.
    injection Htitle as ->.
    assert (Hrest : default "en" ((prog :: title :: rest) !! 2)
                    = default "en" (head rest)) by by destruct rest.
    rewrite Hrest.
    exists (fresh (dom (configs w))).
    assert (Hnew : configs w !! fresh (dom (configs w)) = None)
      by apply not_elem_of_dom, is_fresh.
    destruct (Wikipedia_raises USER_AGENT (default "en" (head rest)))
      as [e|] eqn:Hlib.
    { rewrite (main_constructor_raised _ _ _ _ _ _ eq_refl Hlib); simpl.
      exists []. by rewrite lookup_insert_eq. }
    destruct (page_of {| handle_id := acquired w;
                         handle_user_agent := USER_AGENT;
                         handle_language := default "en" (head rest) |} title)
      as [e|page] eqn:Hpage.
    { rewrite (main_fetch_raised _ _ _ _ _ _ _ eq_refl eq_refl Hlib Hpage); simpl.
      eexists. rewrite lookup_insert_eq, <- app_assoc. done. }
    destruct (page_exists page) eqn:Hexists.
    + rewrite (main_found _ _ _ _ _ _ _ eq_refl eq_refl Hlib Hpage Hexists); simpl.
      eexists. rewrite lookup_insert_eq, <- app_assoc. done.
    + rewrite (main_not_found _ _ _ _ _ _ _ eq_refl eq_refl Hlib Hpage Hexists); simpl.
      eexists. rewrite lookup_insert_eq, <- app_assoc. done.
Qed.

End Entry.

(** ** The properties on the sample library *)

Lemma missing_page_is_error_value_witness :
  Forall (fun run : outcome (gmap string value) * World =>
            exists d : gmap string value,
              run = (Returned d,
                     record_call (CallPage (wiki sample_facade) "Atlantis")
                       sample_world)
              /\ d = {[ "error" := VStr ("Page '" +:+ "Atlantis" +:+ "' does not exist") ]}
              /\ dom d = {[ "error" ]})
    [@get_full_article sample_api sample_self "Atlantis" sample_world;
     @get_summary sample_api sample_self "Atlantis" sample_world;
     @get_sections sample_api sample_self "Atlantis" sample_world;
     @get_links sample_api sample_self "Atlantis" (Some 5%Z) sample_world].
Proof.
  apply (@missing_page_is_error_value sample_api sample_self "Atlantis"
           (Some 5%Z) sample_facade (sample_page false "Atlantis") sample_world);
    reflexivity.
Defined.

(** C2 as the specification states it fails: [-1] is not a positive limit,
    so all 10 links of the page should come back, and 9 do. *)
Lemma get_links_negative_is_not_all :
  facades sample_world !! sample_self = Some sample_facade
  /\ @page_of sample_api (wiki sample_facade) "Python"
     = inr (sample_page true "Python")
  /\ page_exists (sample_page true "Python") = true
  /\ ~ (0 < -1)%Z
  /\ returned_item "links"
       (@get_links sample_api sample_self "Python" (Some (-1)%Z) sample_world)
     = Some (VList (take 9 (keys sample_links)))
  /\ returned_item "links"
       (@get_links sample_api sample_self "Python" (Some (-1)%Z) sample_world)
     <> Some (VList (keys (page_links (sample_page true "Python")))).
Proof.
  split; [reflexivity|]. split; [reflexivity|]. split; [reflexivity|].
  split; [lia|]. split; [vm_compute; reflexivity|].
  vm_compute. discriminate.
Qed.

Lemma get_links_limit_witness :
  returned_item "links"
    (@get_links sample_api sample_self "Python" (Some 3%Z) sample_world)
  = Some (VList
      (if (0 <? 3)%Z
       then take (Z.to_nat 3) (keys (page_links (sample_page true "Python")))
       else if (3 =? 0)%Z then keys (page_links (sample_page true "Python"))
       else take (length (page_links (sample_page true "Python"))
                  - Z.to_nat (- 3))
                 (keys (page_links (sample_page true "Python"))))).
Proof.
  apply (@get_links_limit sample_api sample_self "Python" (Some 3%Z)
           sample_facade (sample_page true "Python") sample_world);
    reflexivity.
Defined.

Lemma get_links_total_links_witness :
  returned_item "total_links"
    (@get_links sample_api sample_self "Python" (Some 5%Z) sample_world)
  = Some (VInt (Z.of_nat (length (page_links (sample_page true "Python")))))
  /\ exists links : list string,
       returned_item "links"
         (@get_links sample_api sample_self "Python" (Some 5%Z) sample_world)
       = Some (VList links)
       /\ length links = 5
       /\ returned_item "total_links"
            (@get_links sample_api sample_self "Python" (Some 5%Z) sample_world)
          = Some (VInt 10).
Proof.
  destruct (@get_links_total_links sample_api sample_self "Python" (Some 5%Z)
              sample_facade (sample_page true "Python") sample_world
              eq_refl eq_refl eq_refl) as [Htotal Hten].
  split; [exact Htotal|]. apply Hten. reflexivity.
Defined.

Lemma get_links_negative_limit_witness :
  exists links : list string,
    returned_item "links"
      (@get_links sample_api sample_self "Python" (Some (-1)%Z) sample_world)
    = Some (VList links)
    /\ links <> keys (page_links (sample_page true "Python"))
    /\ length links = 9
    /\ returned_item "total_links"
         (@get_links sample_api sample_self "Python" (Some (-1)%Z) sample_world)
       = Some (VInt 10).
Proof.
  destruct (@get_links_negative_limit sample_api sample_self "Python" (-1)%Z
              sample_facade (sample_page true "Python") sample_world
              eq_refl eq_refl eq_refl eq_refl)
    as (links & Hlinks & _ & _ & Hfewer & Htotal & Hnine).
  exists links. split; [exact Hlinks|]. split; [|split].
  - apply Hfewer. discriminate.
  - apply Hnine; reflexivity.
  - exact Htotal.
Defined.

Lemma get_full_article_links_witness :
  length (page_links (long_page "Test")) = 30
  /\ exists links : list string,
       returned_item "links"
         (@get_full_article long_api sample_self "Test" sample_world)
       = Some (VList links)
       /\ links = take 20 (keys (page_links (long_page "Test")))
       /\ links = take 20 ((page_links (long_page "Test")).*1)
       /\ (forall i : nat, i < 20 ->
           links !! i = (page_links (long_page "Test")).*1 !! i)
       /\ (forall i : nat, i < 20 ->
           links !! i = keys (page_links (long_page "Test")) !! i)
       /\ length links = 20 `min` length (page_links (long_page "Test"))
       /\ length links = 20
       /\ links <> (page_links (long_page "Test")).*1.
Proof.
  split; [reflexivity|].
  destruct (@get_full_article_links long_api sample_self "Test"
              sample_facade (long_page "Test") sample_world
              eq_refl eq_refl eq_refl)
    as (links & Hlinks & Hkeys & Hfirst & Hat & Hat' & Hlen).
  exists links. do 6 (split; [assumption|]). split.
  - rewrite Hlen. reflexivity.
  - rewrite Hfirst. vm_compute. discriminate.
Defined.

Lemma get_summary_two_keys_witness :
  exists d : gmap string value,
    @get_summary sample_api sample_self "Python" sample_world
    = (Returned d,
       record_call (CallPage (wiki sample_facade) "Python") sample_world)
    /\ dom d = {[ "title"; "summary" ]}
    /\ size d = 2
    /\ d !! "title" = Some (VStr (page_title (sample_page true "Python")))
    /\ d !! "summary" = Some (VStr (page_summary (sample_page true "Python"))).
Proof.
  apply (@get_summary_two_keys sample_api sample_self "Python"
           sample_facade (sample_page true "Python") sample_world);
    reflexivity.
Defined.

Lemma set_language_rebinds_witness :
  (configs (@set_language sample_api sample_self "es" sample_world).2
     !! config sample_facade
   = Some {| language := "es" |}
   /\ Config_to_dict (config sample_facade)
        (@set_language sample_api sample_self "es" sample_world).2
      = (Returned {[ "language" := VStr "es" ]},
         (@set_language sample_api sample_self "es" sample_world).2)
   /\ exists h : Wikipedia,
        handle_language h = "es"
        /\ facades (@set_language sample_api sample_self "es" sample_world).2
             !! sample_self
           = Some {| config := config sample_facade; wiki := h |}
        /\ (@get_summary sample_api sample_self "Gato"
              (@set_language sample_api sample_self "es" sample_world).2).2
           = record_call (CallPage h "Gato")
               (@set_language sample_api sample_self "es" sample_world).2)
  /\ (configs (@set_language sample_api sample_self "" sample_world).2
        !! config sample_facade
      = Some {| language := "" |}
      /\ (@set_language sample_api sample_self "" sample_world).1
         = Raised (LibraryError "no language")
      /\ facades (@set_language sample_api sample_self "" sample_world).2
         = facades sample_world).
Proof.
  split.
  - destruct (@set_language_rebinds sample_api sample_self sample_facade
                {| language := "en" |} "es" sample_world eq_refl eq_refl)
      as (Hconfig & Hdict & _ & Hreturned & _).
    split; [exact Hconfig|]. split; [exact Hdict|].
    destruct (Hreturned eq_refl) as (h & Hh & _ & Hfacade & _ & Hnext).
    exists h. split; [by rewrite Hh|]. split; [exact Hfacade|].
    specialize (Hnext "Gato" None _ eq_refl).
    apply Forall_cons_1 in Hnext as [_ Hnext].
    by apply Forall_cons_1 in Hnext as [Hnext _].
  - destruct (@set_language_rebinds sample_api sample_self sample_facade
                {| language := "en" |} "" sample_world eq_refl eq_refl)
      as (Hconfig & _ & _ & _ & Hraised).
    split; [exact Hconfig|].
    destruct (Hraised (LibraryError "no language") eq_refl) as (Hexn & Hsame & _).
    by split.
Defined.

Lemma reads_leave_state_witness :
  Forall (fun run : outcome (gmap string value) * World =>
            configs run.2 = configs sample_world
            /\ facades run.2 = facades sample_world
            /\ acquired run.2 = acquired sample_world)
    [@get_full_article sample_api sample_self "Python" sample_world;
     @get_summary sample_api sample_self "Python" sample_world;
     @get_sections sample_api sample_self "Python" sample_world;
     @get_links sample_api sample_self "Python" (Some 5%Z) sample_world]
  /\ configs (@set_language sample_api sample_self "es" sample_world).2
     <> configs sample_world
  /\ facades (@set_language sample_api sample_self "es" sample_world).2
     <> facades sample_world.
Proof.
  destruct (@reads_leave_state sample_api sample_self "Python" (Some 5%Z)
              sample_world) as [Hreads Hset].
  split; [exact Hreads|].
  destruct (Hset sample_facade {| language := "en" |} "es" eq_refl eq_refl)
    as [Hconfig Hhandle].
  split.
  - apply Hconfig. discriminate.
  - apply Hhandle; [reflexivity|]. vm_compute. lia.
Defined.

Lemma main_exit_codes_witness :
  ((@main sample_api ["search_wiki_article.py"] empty_world).1
   = Raised (SystemExit 1)
   /\ stdout (@main sample_api ["search_wiki_article.py"] empty_world).2
      = ["Usage: python search_wiki_article.py <article_title> [language]"])
  /\ ((@main sample_api ["search_wiki_article.py"; "Atlantis"] empty_world).1
      = Raised (SystemExit 1)
      /\ stdout (@main sample_api ["search_wiki_article.py"; "Atlantis"]
                   empty_world).2
         = ["Configuration: Config(language='en')";
            "Error: Page 'Atlantis' does not exist"])
  /\ exists (c : loc) (later : list call),
       configs (@main sample_api ["search_wiki_article.py"; "Python"]
                  empty_world).2 !! c
       = Some {| language := "en" |}
       /\ calls (@main sample_api ["search_wiki_article.py"; "Python"]
                   empty_world).2
          = CallWikipedia USER_AGENT "en" :: later.
Proof.
  split; [|split].
  - destruct (@main_exit_codes sample_api ["search_wiki_article.py"] empty_world)
      as [Husage _].
    apply Husage. simpl. lia.
  - destruct (@main_exit_codes sample_api ["search_wiki_article.py"; "Atlantis"]
                empty_world) as (_ & Hmissing & _).
    apply (Hmissing "Atlantis" "en" sample_handle (sample_page false "Atlantis"));
      reflexivity.
  - destruct (@main_exit_codes sample_api ["search_wiki_article.py"; "Python"]
                empty_world) as (_ & _ & Hlang).
    destruct (Hlang "Python" eq_refl) as (c & later & _ & Hconfig & Hcalls).
    exists c, later. by split.
Defined.

(** * Further properties *)

(** ** The results of the read operations *)

Section Results.
Context {api : wikipediaapi}.

Lemma get_sections_existing (self : loc) (title : string)
    (this : WikiArticles) (page : WikipediaPage) (w : World) :
  facades w !! self = Some this ->
  page_of (wiki this) title = inr page ->
  page_exists page = true ->
  get_sections self title w
  = (Returned (py_dict
       [("title", VStr (page_title page));
        ("sections", VList (section_title <$> page_sections page))]),
     record_call (CallPage (wiki this) title) w).
Proof.
  intros Hself Hpage Hexists. unfold get_sections.
  by rewrite (fetch_step _ _ _ _ _ _ Hself Hpage), Hexists.
Qed.

(** For a page that exists, [get_sections] returns a dict with exactly the
    keys ['title'] and ['sections']; ['sections'] holds the titles of the
    page's top-level sections, one per section and in the page's order,
    whatever subsections these have. *)
Theorem get_sections_top_level (self : loc) (title : string)
    (this : WikiArticles) (page : WikipediaPage) (w : World) :
  facades w !! self = Some this ->
  page_of (wiki this) title = inr page ->
  page_exists page = true ->
  exists (d : gmap string value) (titles : list string),
    get_sections self title w
    = (Returned d, record_call (CallPage (wiki this) title) w)
    /\ dom d = {[ "title"; "sections" ]}
    /\ d !! "title" = Some (VStr (page_title page))
    /\ d !! "sections" = Some (VList titles)
    /\ length titles = length (page_sections page)
    /\ forall (i : nat) (t : string) (subs : list WikipediaPageSection),
         page_sections page !! i = Some (mk_section t subs) ->
         titles !! i = Some t.
Proof.
  intros Hself Hpage Hexists.
  rewrite (get_sections_existing _ _ _ _ _ Hself Hpage Hexists).
  eexists _, _. split; [reflexivity|]. unfold py_dict; simpl.
  split; [|split; [|split; [|split]]].
  - rewrite !dom_insert_L, dom_empty_L. set_solver.
  - by rewrite lookup_insert_ne, lookup_insert_eq.
  - apply lookup_insert_eq.
  - apply length_fmap.
  - intros i t subs Hi. by rewrite list_lookup_fmap, Hi.
Qed.

(** For a page that exists, [get_full_article] returns a dict with exactly
    seven keys; ['title'], ['url'], ['summary'] and ['full_text'] hold the
    page's fields, ['categories'] the titles of the category pages (the
    values of [page.categories], not its keys) in the dict's order, and
    ['sections'] the top-level section titles. *)
Theorem get_full_article_shape (self : loc) (title : string)
    (this : WikiArticles) (page : WikipediaPage) (w : World) :
  facades w !! self = Some this ->
  page_of (wiki this) title = inr page ->
  page_exists page = true ->
  exists d : gmap string value,
    get_full_article self title w
    = (Returned d, record_call (CallPage (wiki this) title) w)
    /\ dom d = {[ "title"; "url"; "summary"; "full_text"; "categories";
                  "links"; "sections" ]}
    /\ size d = 7
    /\ d !! "title" = Some (VStr (page_title page))
    /\ d !! "url" = Some (VStr (page_fullurl page))
    /\ d !! "summary" = Some (VStr (page_summary page))
    /\ d !! "full_text" = Some (VStr (page_text page))
    /\ d !! "categories"
       = Some (VList ((fun item => ref_title item.2) <$> page_categories page))
    /\ d !! "sections" = Some (VList (section_title <$> page_sections page)).
Proof.
  intros Hself Hpage Hexists.
  rewrite (get_full_article_existing _ _ _ _ _ Hself Hpage Hexists).
  eexists. split; [reflexivity|]. unfold py_dict; simpl.
  split; [|split].
  - rewrite !dom_insert_L, dom_empty_L. set_solver.
  - repeat (rewrite map_size_insert_None;
            [|by repeat (rewrite lookup_insert_ne by done)]).
    by rewrite map_size_empty.
  - unfold values. rewrite <- list_fmap_compose.
    repeat split; by repeat (rewrite lookup_insert_ne by done).
Qed.

End Results.

(** ** Outcomes of the read operations *)

Section Outcomes.
Context {api : wikipediaapi}.

(** What each read operation does with the page it fetched. *)
Lemma reads_fetched (self : loc) (title : string) (limit : option Z)
    (this : WikiArticles) (page : WikipediaPage) (w : World) :
  facades w !! self = Some this ->
  page_of (wiki this) title = inr page ->
  Forall (fun run : outcome (gmap string value) * World =>
            exists d : gmap string value,
              run = (Returned d, record_call (CallPage (wiki this) title) w)
              /\ ("error" ∈ dom d <-> page_exists page = false))
    [get_full_article self title w; get_summary self title w;
     get_sections self title w; get_links self title limit w].
Proof.
  intros Hself Hpage. destruct (page_exists page) eqn:Hexists.
  - repeat apply Forall_cons_2; [..|apply Forall_nil_2]; eexists.
    + split; [by apply get_full_article_existing|].
      split; [|done]. intros Hin. exfalso. revert Hin.
      by apply (full_article_has_no_error page).
    + split; [by apply get_summary_existing|].
      split; [|done]. intros Hin. exfalso. revert Hin.
      apply not_elem_of_dom. by repeat (rewrite lookup_insert_ne by done).
    + split; [by apply get_sections_existing|].
      split; [|done]. intros Hin. exfalso. revert Hin.
      apply not_elem_of_dom. by repeat (rewrite lookup_insert_ne by done).
    + split; [by apply get_links_existing|].
      split; [|done]. intros Hin. exfalso. revert Hin.
      apply not_elem_of_dom. by repeat (rewrite lookup_insert_ne by done).
  - repeat apply Forall_cons_2; [..|apply Forall_nil_2]; eexists.
    all: unfold get_full_article, get_summary, get_sections, get_links.
    all: rewrite (fetch_step _ _ _ _ _ _ Hself Hpage), Hexists.
    all: split; [reflexivity|]; split; [done|]; intros _.
    all: apply elem_of_dom; eexists; apply lookup_insert_eq.
Qed.

(** When a read operation returns, its result has the key ['error'] exactly
    when the page does not exist: a page that exists never gives a dict with
    that key, whatever its title and fields are.  [main] tells the two cases
    apart by this key. *)
Theorem error_key_iff_missing (self : loc) (title : string) (limit : option Z)
    (this : WikiArticles) (page : WikipediaPage) (w : World) :
  facades w !! self = Some this ->
  page_of (wiki this) title = inr page ->
  Forall (fun run : outcome (gmap string value) * World =>
            exists d : gmap string value,
              run.1 = Returned d
              /\ ("error" ∈ dom d <-> page_exists page = false))
    [get_full_article self title w; get_summary self title w;
     get_sections self title w; get_links self title limit w].
Proof.
  intros Hself Hpage.
  eapply Forall_impl; [apply (reads_fetched self title limit this page w Hself Hpage)|].
  intros run (d & -> & Hd). by exists d.
Qed.

(** An exception that the library raises while the page is fetched leaves
    each read operation as it is: the operation raises the same exception,
    returns no dict, and has made that one call to the library. *)
Theorem reads_propagate_library_exception (self : loc) (title : string)
    (limit : option Z) (this : WikiArticles) (e : exn) (w : World) :
  facades w !! self = Some this ->
  page_of (wiki this) title = inl e ->
  Forall (fun run : outcome (gmap string value) * World =>
            run = (Raised e, record_call (CallPage (wiki this) title) w))
    [get_full_article self title w; get_summary self title w;
     get_sections self title w; get_links self title limit w].
Proof.
  intros Hself Hpage.
  repeat apply Forall_cons_2; [..|apply Forall_nil_2].
  all: unfold get_full_article, get_summary, get_sections, get_links.
  all: rewrite (bind_returned _ _ _ _ _ (read_self_at _ _ _ Hself)).
  all: by rewrite (bind_raised _ _ _ _ _ (Wikipedia_page_failed _ _ _ _ Hpage)).
Qed.

(** Each read operation asks for one page and makes no handle: of the calls
    on the record (handles made, pages asked of a handle) it adds one,
    [page(title)] with the title it was given, on the handle the facade holds
    at the time of the call, whatever comes back (a page that exists, one
    that does not, an exception); it prints nothing.  The calls it makes on
    the page object itself are not counted here. *)
Theorem reads_ask_for_one_page (self : loc) (title : string) (limit : option Z)
    (this : WikiArticles) (w : World) :
  facades w !! self = Some this ->
  Forall (fun run : outcome (gmap string value) * World =>
            calls run.2 = calls w ++ [CallPage (wiki this) title]
            /\ stdout run.2 = stdout w)
    [get_full_article self title w; get_summary self title w;
     get_sections self title w; get_links self title limit w].
Proof.
  intros Hself.
  eapply Forall_impl;
    [apply (reads_use_current_handle self title limit this w Hself)|].
  by intros run ->.
Qed.

(** The outcome of a read operation depends on the world only through the
    facade object. *)
Lemma reads_outcome_of_facade (self : loc) (title : string) (limit : option Z)
    (w1 w2 : World) :
  facades w1 !! self = facades w2 !! self ->
  Forall2 (fun run1 run2 : outcome (gmap string value) * World =>
             run1.1 = run2.1)
    [get_full_article self title w1; get_summary self title w1;
     get_sections self title w1; get_links self title limit w1]
    [get_full_article self title w2; get_summary self title w2;
     get_sections self title w2; get_links self title limit w2].
Proof.
  intros Hsame.
  repeat apply Forall2_cons_2; [..|apply Forall2_nil_2].
  all: unfold get_full_article, get_summary, get_sections, get_links.
  all: unfold read_self, mbind, M_bind; rewrite Hsame.
  all: destruct (facades w2 !! self) as [this|]; [|done].
  all: unfold Wikipedia_page, mbind, M_bind, log, raise; simpl.
  all: destruct (page_of (wiki this) title) as [e|page]; [done|].
  all: unfold mret, M_ret; simpl.
  all: destruct (page_exists page); reflexivity.
Qed.

(** [Config.set_language] on the facade's [Config] object, without the
    facade's [set_language], changes what [to_dict] gives and nothing about
    the fetches: the library is not called, the facade keeps its handle, and
    each read operation fetches through that handle and has the outcome it
    would have had before. *)
Theorem Config_set_language_keeps_handle (self : loc) (this : WikiArticles)
    (cfg : Config) (code title : string) (limit : option Z) (w : World) :
  facades w !! self = Some this ->
  configs w !! config this = Some cfg ->
  exists w' : World,
    Config_set_language (config this) code w = (Returned tt, w')
    /\ Config_to_dict (config this) w'
       = (Returned {[ "language" := VStr code ]}, w')
    /\ calls w' = calls w
    /\ facades w' !! self = Some this
    /\ Forall2 (fun run' run : outcome (gmap string value) * World =>
                  run'.1 = run.1
                  /\ calls run'.2 = calls w ++ [CallPage (wiki this) title])
         [get_full_article self title w'; get_summary self title w';
          get_sections self title w'; get_links self title limit w']
         [get_full_article self title w; get_summary self title w;
          get_sections self title w; get_links self title limit w].
Proof.
  intros Hself Hcfg. eexists.
  split; [by apply (Config_set_language_run _ cfg)|].
  split; [|split; [done|split; [done|]]].
  { unfold Config_to_dict, read_config, mbind, M_bind; simpl.
    by rewrite lookup_insert_eq. }
  set (w' := {| configs := _ |}).
  assert (Hself' : facades w' !! self = Some this) by done.
  pose proof (reads_outcome_of_facade self title limit w' w
                (eq_trans Hself' (eq_sym Hself))) as Hout.
  pose proof (reads_use_current_handle self title limit this w' Hself') as Hvia.
  repeat match goal with
         | H : Forall2 _ (_ :: _) (_ :: _) |- _ =>
             apply Forall2_cons_1 in H as [? H]
         | H : Forall _ (_ :: _) |- _ => apply Forall_cons_1 in H as [? H]
         end.
  repeat apply Forall2_cons_2; [..|apply Forall2_nil_2].
  all: split; [done|].
  all: by match goal with
          | H : ?run = record_call _ _ |- calls ?run = _ => rewrite H
          end.
Qed.

End Outcomes.

(** ** Links and limits *)

Lemma slice_to_prefix {A : Type} (stop : Z) (l : list A) :
  slice_to stop l `prefix_of` l.
Proof. unfold slice_to. apply prefix_take. Qed.

Section Limits.
Context {api : wikipediaapi}.

(** For a page that exists and any [limit], negative ones too, the ['links']
    of [get_links] are an initial part of the page's link titles: nothing is
    reordered, skipped or added, and there are never more of them than
    ['total_links'] says. *)
Theorem get_links_is_prefix (self : loc) (title : string) (limit : option Z)
    (this : WikiArticles) (page : WikipediaPage) (w : World) :
  facades w !! self = Some this ->
  page_of (wiki this) title = inr page ->
  page_exists page = true ->
  exists (links : list string) (total : nat),
    returned_item "links" (get_links self title limit w) = Some (VList links)
    /\ returned_item "total_links" (get_links self title limit w)
       = Some (VInt (Z.of_nat total))
    /\ links `prefix_of` keys (page_links page)
    /\ length links <= total.
Proof.
  intros Hself Hpage Hexists.
  rewrite !(get_links_existing _ _ _ _ _ _ Hself Hpage Hexists).
  unfold returned_item, py_dict; simpl.
  eexists _, _. split; [by rewrite lookup_insert_ne, lookup_insert_eq|].
  split; [apply lookup_insert_eq|].
  assert (Hprefix : (if truthy limit
                     then slice_to (default 0%Z limit) (keys (page_links page))
                     else keys (page_links page))
                    `prefix_of` keys (page_links page)).
  { destruct (truthy limit); [apply slice_to_prefix|done]. }
  split; [exact Hprefix|]. by apply prefix_length.
Qed.

(** For a page that exists, [get_links] returns every link title, and
    ['total_links'] is then the length of ['links'], when [limit] is [None],
    when it is [0], and when it is at least the number of links. *)
Theorem get_links_all (self : loc) (title : string) (limit : option Z)
    (this : WikiArticles) (page : WikipediaPage) (w : World) :
  facades w !! self = Some this ->
  page_of (wiki this) title = inr page ->
  page_exists page = true ->
  match limit with
  | None => True
  | Some n => n = 0%Z \/ (Z.of_nat (length (page_links page)) <= n)%Z
  end ->
  exists links : list string,
    returned_item "links" (get_links self title limit w) = Some (VList links)
    /\ links = keys (page_links page)
    /\ returned_item "total_links" (get_links self title limit w)
       = Some (VInt (Z.of_nat (length links))).
Proof.
  intros Hself Hpage Hexists Hlimit.
  rewrite !(get_links_existing _ _ _ _ _ _ Hself Hpage Hexists).
  unfold returned_item, py_dict; simpl.
  assert (Hall : (if truthy limit
                  then slice_to (default 0%Z limit) (keys (page_links page))
                  else keys (page_links page))
                 = keys (page_links page)).
  { destruct limit as [n|]; [simpl|done].
    destruct (Z.eqb_spec n 0) as [|Hn]; [done|]. simpl.
    destruct Hlimit as [|Hlimit]; [done|].
    rewrite slice_to_nonneg by lia. apply take_ge. rewrite length_keys. lia. }
  rewrite Hall. eexists. split; [by rewrite lookup_insert_ne, lookup_insert_eq|].
  split; [done|]. apply lookup_insert_eq.
Qed.

(** For a page that exists, a negative [limit] that reaches back to the
    start of the link titles or beyond gives an empty ['links'], with
    ['total_links'] still the number of links. *)
Theorem get_links_negative_beyond (self : loc) (title : string) (n : Z)
    (this : WikiArticles) (page : WikipediaPage) (w : World) :
  facades w !! self = Some this ->
  page_of (wiki this) title = inr page ->
  page_exists page = true ->
  (n < 0)%Z ->
  (n <= - Z.of_nat (length (page_links page)))%Z ->
  returned_item "links" (get_links self title (Some n) w) = Some (VList [])
  /\ returned_item "total_links" (get_links self title (Some n) w)
     = Some (VInt (Z.of_nat (length (page_links page)))).
Proof.
  intros Hself Hpage Hexists Hneg Hn.
  rewrite !(get_links_existing _ _ _ _ _ _ Hself Hpage Hexists).
  unfold returned_item, py_dict; simpl.
  destruct (Z.eqb_spec n 0) as [|_]; [lia|]; simpl.
  rewrite slice_to_neg, !length_keys by done.
  replace (length (page_links page) - Z.to_nat (- n)) with 0 by lia.
  split; [by rewrite lookup_insert_ne, lookup_insert_eq|apply lookup_insert_eq].
Qed.

(** When the library gives a page with its fields loaded, the ['links'] of
    [get_full_article(title)] are those of [get_links(title, 20)]: the first
    20 link titles when the page exists, and absent from both results when
    it does not. *)
Theorem get_full_article_links_as_get_links (self : loc) (title : string)
    (this : WikiArticles) (page : WikipediaPage) (w : World) :
  facades w !! self = Some this ->
  page_of (wiki this) title = inr page ->
  returned_item "links" (get_full_article self title w)
  = returned_item "links" (get_links self title (Some 20%Z) w)
  /\ returned_item "links" (get_full_article self title w)
     = (if page_exists page
        then Some (VList (take 20 ((page_links page).*1)))
        else None).
Proof.
  intros Hself Hpage. destruct (page_exists page) eqn:Hexists.
  - rewrite (get_full_article_existing _ _ _ _ _ Hself Hpage Hexists).
    rewrite (get_links_existing _ _ _ _ _ _ Hself Hpage Hexists).
    unfold returned_item, py_dict; simpl.
    rewrite (slice_to_nonneg 20) by lia.
    split; by repeat (rewrite lookup_insert_ne by done); rewrite ?lookup_insert_eq.
  - unfold get_full_article, get_links.
    rewrite !(fetch_step _ _ _ _ _ _ Hself Hpage), Hexists.
    unfold returned_item, py_dict; simpl.
    split; [done|]. by rewrite lookup_insert_ne, lookup_empty.
Qed.

(** [get_summary] and [get_sections] are parts of [get_full_article]: when
    the library gives a page with its fields loaded, the three operations
    return, and every item of the dicts of [get_summary] and [get_sections]
    is an item of the dict of [get_full_article] (the three are the same
    error dict when the page does not exist). *)
Theorem summary_and_sections_within_full_article (self : loc) (title : string)
    (this : WikiArticles) (page : WikipediaPage) (w : World) :
  facades w !! self = Some this ->
  page_of (wiki this) title = inr page ->
  exists full summary sections : gmap string value,
    (get_full_article self title w).1 = Returned full
    /\ (get_summary self title w).1 = Returned summary
    /\ (get_sections self title w).1 = Returned sections
    /\ summary ⊆ full
    /\ sections ⊆ full
    /\ (page_exists page = false -> summary = full /\ sections = full).
Proof.
  intros Hself Hpage.
  unfold get_full_article, get_summary, get_sections.
  rewrite !(fetch_step _ _ _ _ _ _ Hself Hpage).
  destruct (page_exists page); simpl; eexists _, _, _.
  all: do 3 (split; [reflexivity|]).
  - unfold py_dict; simpl. split; [|split; [|done]].
    all: apply map_subseteq_spec; intros key v.
    all: rewrite !lookup_insert; repeat case_decide; subst; try done.
  - done.
Qed.

End Limits.

(** ** Objects and handles *)

(** [Config.set_language] overwrites: of two calls on one object the second
    decides the field, [to_dict] and [repr] then show its code, and every
    other [Config] object and every facade is left as it was. *)
Theorem Config_set_language_overwrites (c : loc) (cfg : Config)
    (first second : string) (w : World) :
  configs w !! c = Some cfg ->
  exists w' : World,
    (Config_set_language c first;; Config_set_language c second) w
    = (Returned tt, w')
    /\ Config_set_language c second w = (Returned tt, w')
    /\ Config_to_dict c w' = (Returned {[ "language" := VStr second ]}, w')
    /\ Config_repr c w' = (Returned ("Config(language='" +:+ second +:+ "')"), w')
    /\ (forall other : loc, other <> c -> configs w' !! other = configs w !! other)
    /\ facades w' = facades w.
Proof.
  intros Hc. eexists. split; [|split; [|split; [|split; [|split]]]].
  - rewrite (bind_returned _ _ _ _ _ (Config_set_language_run _ _ first _ Hc)).
    erewrite Config_set_language_run by apply lookup_insert_eq.
    simpl. by rewrite insert_insert_eq.
  - by apply (Config_set_language_run _ cfg).
  - unfold Config_to_dict, read_config, mbind, M_bind; simpl.
    by rewrite lookup_insert_eq.
  - unfold Config_repr, read_config, mbind, M_bind; simpl.
    by rewrite lookup_insert_eq.
  - intros other Hother; simpl. by rewrite lookup_insert_ne.
  - done.
Qed.

Section Handles.
Context {api : wikipediaapi}.

(** [WikiArticles(config=c)] keeps a reference to the caller's [Config]
    object: no [Config] object is made or changed, the new facade points to
    [c], its handle was asked from the library once, with the user agent of
    the class and the language that [c] holds at that moment, and the facades
    that existed are untouched. *)
Theorem WikiArticles_init_shares_config (c : loc) (cfg : Config) (w : World) :
  configs w !! c = Some cfg ->
  Wikipedia_raises USER_AGENT (language cfg) = None ->
  exists (self : loc) (w' : World),
    WikiArticles_init (Some c) w = (Returned self, w')
    /\ facades w !! self = None
    /\ facades w' !! self
       = Some {| config := c;
                 wiki := {| handle_id := acquired w;
                            handle_user_agent := "MyApp/1.0 (your@email.com)";
                            handle_language := language cfg |} |}
    /\ configs w' = configs w
    /\ calls w' = calls w ++ [CallWikipedia USER_AGENT (language cfg)]
    /\ (forall other : loc, other <> self ->
          facades w' !! other = facades w !! other).
Proof.
  intros Hc Hlib. eexists _, _.
  split; [by apply (WikiArticles_init_run c cfg)|]. simpl.
  split; [apply not_elem_of_dom, is_fresh|].
  split; [apply lookup_insert_eq|]. split; [done|]. split; [done|].
  intros other Hother. by rewrite lookup_insert_ne.
Qed.

(** [WikiArticles()] makes a [Config] object of its own, with language
    ['en'], and asks the library for a handle for ['en']. *)
Theorem WikiArticles_init_default (w : World) :
  Wikipedia_raises USER_AGENT "en" = None ->
  exists (self c : loc) (w' : World),
    WikiArticles_init None w = (Returned self, w')
    /\ configs w !! c = None
    /\ facades w !! self = None
    /\ configs w' !! c = Some {| language := "en" |}
    /\ facades w' !! self
       = Some {| config := c;
                 wiki := {| handle_id := acquired w;
                            handle_user_agent := USER_AGENT;
                            handle_language := "en" |} |}
    /\ calls w' = calls w ++ [CallWikipedia USER_AGENT "en"].
Proof.
  intros Hlib. eexists _, (fresh (dom (configs w))), _.
  split.
  - unfold WikiArticles_init.
    erewrite bind_returned by reflexivity.
    erewrite bind_returned by (apply read_config_at, lookup_insert_eq).
    unfold Wikipedia_new, new_self, log, record_call, mbind, M_bind; simpl.
    unfold Config_default_language. rewrite Hlib. reflexivity.
  - simpl. split; [apply not_elem_of_dom, is_fresh|].
    split; [apply not_elem_of_dom, is_fresh|].
    split; [apply lookup_insert_eq|]. split; [apply lookup_insert_eq|done].
Qed.

(** When the library's constructor raises, [WikiArticles(config=c)] raises
    the same exception and no facade comes to exist; the caller's [Config]
    object is as it was. *)
Theorem WikiArticles_init_propagates (c : loc) (cfg : Config) (e : exn)
    (w : World) :
  configs w !! c = Some cfg ->
  Wikipedia_raises USER_AGENT (language cfg) = Some e ->
  (WikiArticles_init (Some c) w).1 = Raised e
  /\ facades (WikiArticles_init (Some c) w).2 = facades w
  /\ configs (WikiArticles_init (Some c) w).2 = configs w
  /\ acquired (WikiArticles_init (Some c) w).2 = acquired w.
Proof.
  intros Hc Hlib. by rewrite (WikiArticles_init_raised c cfg e w Hc Hlib).
Qed.

(** [set_language] touches one facade and one [Config] object: in either
    outcome every other facade (also one that shares the [Config] object)
    keeps its handle, every other [Config] object keeps its language, and
    nothing is printed. *)
Theorem set_language_frame (self : loc) (this : WikiArticles) (cfg : Config)
    (code : string) (w : World) :
  facades w !! self = Some this ->
  configs w !! config this = Some cfg ->
  (forall other : loc, other <> self ->
     facades (set_language self code w).2 !! other = facades w !! other)
  /\ (forall c : loc, c <> config this ->
        configs (set_language self code w).2 !! c = configs w !! c)
  /\ stdout (set_language self code w).2 = stdout w.
Proof.
  intros Hself Hcfg.
  destruct (Wikipedia_raises USER_AGENT code) as [e|] eqn:Hlib.
  - rewrite (set_language_raised _ _ _ _ _ _ Hself Hcfg Hlib); simpl.
    split; [done|]. split; [|done].
    intros c Hc. by rewrite lookup_insert_ne.
  - rewrite (set_language_run _ _ _ _ _ Hself Hcfg Hlib); simpl.
    split; [|split; [|done]].
    + intros other Hother. by rewrite lookup_insert_ne.
    + intros c Hc. by rewrite lookup_insert_ne.
Qed.

(** Calling [set_language] once per code of a list, the library's
    constructor returning each time, asks the library for one handle per
    call, in the order of the codes and also for a code that is already the
    current one; afterwards the [Config] object and the facade's handle have
    the last code. *)
Theorem set_language_repeated (codes : list string) (code : string) (self : loc)
    (this : WikiArticles) (cfg : Config) (w : World) :
  facades w !! self = Some this ->
  configs w !! config this = Some cfg ->
  Forall (fun code' : string => Wikipedia_raises USER_AGENT code' = None)
    (codes ++ [code]) ->
  exists w' : World,
    for_each (set_language self) (codes ++ [code]) w = (Returned tt, w')
    /\ configs w' !! config this = Some {| language := code |}
    /\ facades w' !! self
       = Some {| config := config this;
                 wiki := {| handle_id := acquired w + length codes;
                            handle_user_agent := USER_AGENT;
                            handle_language := code |} |}
    /\ acquired w' = acquired w + S (length codes)
    /\ calls w' = calls w ++ (CallWikipedia USER_AGENT <$> codes ++ [code]).
Proof.
  revert this cfg w.
  induction codes as [|first codes IH]; intros this cfg w Hself Hcfg Hlib.
  - apply Forall_cons_1 in Hlib as [Hlib _]. eexists. simpl. split.
    { erewrite bind_returned by by apply (set_language_run self this cfg).
      reflexivity. }
    simpl. rewrite !lookup_insert_eq, Nat.add_0_r.
    repeat split; [f_equal; lia].
  - apply Forall_cons_1 in Hlib as [Hfirst Hlib]. simpl.
    erewrite bind_returned by by apply (set_language_run self this cfg).
    match goal with
    | |- context [for_each _ _ ?w1] =>
        destruct (IH {| config := config this;
                        wiki := {| handle_id := acquired w;
                                   handle_user_agent := USER_AGENT;
                                   handle_language := first |} |}
                     {| language := first |} w1)
          as (w' & Hrun & Hc & Hf & Ha & Hcalls);
          [apply lookup_insert_eq|apply lookup_insert_eq|exact Hlib|]
    end.
    simpl in *. exists w'. split; [exact Hrun|].
    split; [exact Hc|]. split; [|split].
    + rewrite Hf. do 3 f_equal. lia.
    + lia.
    + by rewrite Hcalls, <- app_assoc.
Qed.

End Handles.

(** ** Runs of the entry point *)

Section Runs.
Context {api : wikipediaapi}.

(** When the page exists, [main] returns without raising (exit code 0) after
    printing eight things: the configuration, the title, the URL, a header,
    the full text, a header, the number of code points of the full text, and
    the titles of at most the first five top-level sections, joined by
    [", "] and followed by ["..."] (also when there are five or fewer). *)
Theorem main_prints_article (argv : list string) (title lang : string)
    (h : Wikipedia) (page : WikipediaPage) (w : World) :
  argv !! 1 = Some title ->
  lang = default "en" (argv !! 2) ->
  h = {| handle_id := acquired w; handle_user_agent := USER_AGENT;
         handle_language := lang |} ->
  Wikipedia_raises USER_AGENT lang = None ->
  page_of h title = inr page ->
  page_exists page = true ->
  (main argv w).1 = Returned tt
  /\ stdout (main argv w).2
     = stdout w
       ++ ["Configuration: Config(language='" +:+ lang +:+ "')";
           "Title: " +:+ page_title page;
           "URL: " +:+ page_fullurl page;
           newline +:+ "--- FULL ARTICLE ---";
           page_text page;
           newline +:+ "--- METADATA ---";
           "Total characters: " +:+ pretty (code_points (page_text page));
           "Sections: "
             +:+ String.concat ", " (take 5 (section_title <$> page_sections page))
             +:+ "..."]
  /\ calls (main argv w).2
     = calls w ++ [CallWikipedia USER_AGENT lang; CallPage h title].
Proof.
  intros Htitle Hlang Hh Hlib Hpage Hexists.
  destruct argv as [|prog [|title' rest]]; try done.
  injection Htitle as ->.
  assert (Hrest : lang = default "en" (head rest)) by by destruct rest.
  rewrite (main_found _ _ _ _ _ _ _ Hrest Hh Hlib Hpage Hexists); simpl.
  rewrite (slice_to_nonneg 5) by lia.
  split; [done|]. split; [done|]. by rewrite <- app_assoc.
Qed.

(** [main] catches nothing: an exception of the library's constructor
    leaves [main] before anything is printed, and an exception raised while
    the page is fetched leaves it after the configuration line; in neither
    case is an ["Error: "] line printed. *)
Theorem main_propagates_library_exception (argv : list string)
    (title lang : string) (e : exn) (w : World) :
  argv !! 1 = Some title ->
  lang = default "en" (argv !! 2) ->
  (Wikipedia_raises USER_AGENT lang = Some e ->
   (main argv w).1 = Raised e
   /\ stdout (main argv w).2 = stdout w
   /\ facades (main argv w).2 = facades w)
  /\ (Wikipedia_raises USER_AGENT lang = None ->
      page_of {| handle_id := acquired w; handle_user_agent := USER_AGENT;
                 handle_language := lang |} title = inl e ->
      (main argv w).1 = Raised e
      /\ stdout (main argv w).2
         = stdout w ++ ["Configuration: Config(language='" +:+ lang +:+ "')"]).
Proof.
  intros Htitle Hlang.
  destruct argv as [|prog [|title' rest]]; try done.
  injection Htitle as ->.
  assert (Hrest : lang = default "en" (head rest)) by by destruct rest.
  split.
  - intros Hlib. by rewrite (main_constructor_raised _ _ _ _ _ _ Hrest Hlib).
  - intros Hlib Hpage.
    by rewrite (main_fetch_raised _ _ _ _ _ _ _ Hrest eq_refl Hlib Hpage).
Qed.

(** [main] reads [sys.argv[1]] and [sys.argv[2]] only: the program name and
    any argument after the language make no difference, and leaving the
    language out is the same as passing ['en']. *)
Theorem main_reads_two_arguments (prog prog' title : string)
    (rest : list string) (w : World) :
  main (prog :: title :: rest) w
  = main [prog'; title; default "en" (head rest)] w.
Proof.
  set (lang := default "en" (head rest)).
  assert (Hlang : lang = default "en" (head [lang])) by done.
  destruct (Wikipedia_raises USER_AGENT lang) as [e|] eqn:Hlib.
  { rewrite (main_constructor_raised prog title lang rest e w eq_refl Hlib).
    by rewrite (main_constructor_raised prog' title lang [lang] e w Hlang Hlib). }
  destruct (page_of {| handle_id := acquired w;
                       handle_user_agent := USER_AGENT;
                       handle_language := lang |} title)
    as [e|page] eqn:Hpage.
  { rewrite (main_fetch_raised prog title lang rest _ e w eq_refl eq_refl Hlib Hpage).
    by rewrite (main_fetch_raised prog' title lang [lang] _ e w Hlang eq_refl Hlib Hpage). }
  destruct (page_exists page) eqn:Hexists.
  - rewrite (main_found prog title lang rest _ page w eq_refl eq_refl Hlib Hpage Hexists).
    by rewrite (main_found prog' title lang [lang] _ page w Hlang eq_refl Hlib Hpage Hexists).
  - rewrite (main_not_found prog title lang rest _ page w eq_refl eq_refl Hlib Hpage Hexists).
    by rewrite (main_not_found prog' title lang [lang] _ page w Hlang eq_refl Hlib Hpage Hexists).
Qed.

End Runs.

(** ** The further properties on the sample library *)

Lemma get_sections_top_level_witness :
  exists (d : gmap string value) (titles : list string),
    @get_sections sample_api sample_self "Python" sample_world
    = (Returned d,
       record_call (CallPage (wiki sample_facade) "Python") sample_world)
    /\ dom d = {[ "title"; "sections" ]}
    /\ d !! "title" = Some (VStr (page_title (sample_page true "Python")))
    /\ d !! "sections" = Some (VList titles)
    /\ length titles = length (page_sections (sample_page true "Python"))
    /\ forall (i : nat) (t : string) (subs : list WikipediaPageSection),
         page_sections (sample_page true "Python") !! i = Some (mk_section t subs) ->
         titles !! i = Some t.
Proof.
  apply (@get_sections_top_level sample_api sample_self "Python"
           sample_facade (sample_page true "Python") sample_world);
    reflexivity.
Defined.

Lemma get_full_article_shape_witness :
  exists d : gmap string value,
    @get_full_article sample_api sample_self "Python" sample_world
    = (Returned d,
       record_call (CallPage (wiki sample_facade) "Python") sample_world)
    /\ dom d = {[ "title"; "url"; "summary"; "full_text"; "categories";
                  "links"; "sections" ]}
    /\ size d = 7
    /\ d !! "title" = Some (VStr (page_title (sample_page true "Python")))
    /\ d !! "url" = Some (VStr (page_fullurl (sample_page true "Python")))
    /\ d !! "summary" = Some (VStr (page_summary (sample_page true "Python")))
    /\ d !! "full_text" = Some (VStr (page_text (sample_page true "Python")))
    /\ d !! "categories"
       = Some (VList ((fun item => ref_title item.2)
                        <$> page_categories (sample_page true "Python")))
    /\ d !! "sections"
       = Some (VList (section_title <$> page_sections (sample_page true "Python"))).
Proof.
  apply (@get_full_article_shape sample_api sample_self "Python"
           sample_facade (sample_page true "Python") sample_world);
    reflexivity.
Defined.

Lemma error_key_iff_missing_witness :
  Forall (fun run : outcome (gmap string value) * World =>
            exists d : gmap string value,
              run.1 = Returned d
              /\ ("error" ∈ dom d
                  <-> page_exists (sample_page true "Python") = false))
    [@get_full_article sample_api sample_self "Python" sample_world;
     @get_summary sample_api sample_self "Python" sample_world;
     @get_sections sample_api sample_self "Python" sample_world;
     @get_links sample_api sample_self "Python" None sample_world].
Proof.
  apply (@error_key_iff_missing sample_api sample_self "Python" None
           sample_facade (sample_page true "Python") sample_world);
    reflexivity.
Defined.

Lemma reads_propagate_library_exception_witness :
  Forall (fun run : outcome (gmap string value) * World =>
            run = (Raised (LibraryError "timeout"),
                   record_call (CallPage (wiki sample_facade) "Offline")
                     sample_world))
    [@get_full_article sample_api sample_self "Offline" sample_world;
     @get_summary sample_api sample_self "Offline" sample_world;
     @get_sections sample_api sample_self "Offline" sample_world;
     @get_links sample_api sample_self "Offline" (Some 5%Z) sample_world].
Proof.
  apply (@reads_propagate_library_exception sample_api sample_self "Offline"
           (Some 5%Z) sample_facade (LibraryError "timeout") sample_world);
    reflexivity.
Defined.

Lemma reads_ask_for_one_page_witness :
  Forall (fun run : outcome (gmap string value) * World =>
            calls run.2
            = calls sample_world ++ [CallPage (wiki sample_facade) "Atlantis"]
            /\ stdout run.2 = stdout sample_world)
    [@get_full_article sample_api sample_self "Atlantis" sample_world;
     @get_summary sample_api sample_self "Atlantis" sample_world;
     @get_sections sample_api sample_self "Atlantis" sample_world;
     @get_links sample_api sample_self "Atlantis" None sample_world].
Proof.
  apply (@reads_ask_for_one_page sample_api sample_self "Atlantis" None
           sample_facade sample_world).
  reflexivity.
Defined.

Lemma Config_set_language_keeps_handle_witness :
  exists w' : World,
    Config_set_language (config sample_facade) "es" sample_world
    = (Returned tt, w')
    /\ Config_to_dict (config sample_facade) w'
       = (Returned {[ "language" := VStr "es" ]}, w')
    /\ calls w' = calls sample_world
    /\ facades w' !! sample_self = Some sample_facade
    /\ Forall2 (fun run' run : outcome (gmap string value) * World =>
                  run'.1 = run.1
                  /\ calls run'.2
                     = calls sample_world
                       ++ [CallPage (wiki sample_facade) "Python"])
         [@get_full_article sample_api sample_self "Python" w';
          @get_summary sample_api sample_self "Python" w';
          @get_sections sample_api sample_self "Python" w';
          @get_links sample_api sample_self "Python" None w']
         [@get_full_article sample_api sample_self "Python" sample_world;
          @get_summary sample_api sample_self "Python" sample_world;
          @get_sections sample_api sample_self "Python" sample_world;
          @get_links sample_api sample_self "Python" None sample_world].
Proof.
  apply (@Config_set_language_keeps_handle sample_api sample_self sample_facade
           {| language := "en" |} "es" "Python" None sample_world);
    reflexivity.
Defined.

Lemma get_links_is_prefix_witness :
  exists (links : list string) (total : nat),
    returned_item "links"
      (@get_links sample_api sample_self "Python" (Some (-3)%Z) sample_world)
    = Some (VList links)
    /\ returned_item "total_links"
         (@get_links sample_api sample_self "Python" (Some (-3)%Z) sample_world)
       = Some (VInt (Z.of_nat total))
    /\ links `prefix_of` keys (page_links (sample_page true "Python"))
    /\ length links <= total.
Proof.
  apply (@get_links_is_prefix sample_api sample_self "Python" (Some (-3)%Z)
           sample_facade (sample_page true "Python") sample_world);
    reflexivity.
Defined.

Lemma get_links_all_witness :
  exists links : list string,
    returned_item "links"
      (@get_links sample_api sample_self "Python" (Some 10%Z) sample_world)
    = Some (VList links)
    /\ links = keys (page_links (sample_page true "Python"))
    /\ returned_item "total_links"
         (@get_links sample_api sample_self "Python" (Some 10%Z) sample_world)
       = Some (VInt (Z.of_nat (length links))).
Proof.
  apply (@get_links_all sample_api sample_self "Python" (Some 10%Z)
           sample_facade (sample_page true "Python") sample_world);
    [reflexivity|reflexivity|reflexivity|].
  right. vm_compute. discriminate.
Defined.

Lemma get_links_negative_beyond_witness :
  returned_item "links"
    (@get_links sample_api sample_self "Python" (Some (-10)%Z) sample_world)
  = Some (VList [])
  /\ returned_item "total_links"
       (@get_links sample_api sample_self "Python" (Some (-10)%Z) sample_world)
     = Some (VInt (Z.of_nat (length (page_links (sample_page true "Python"))))).
Proof.
  apply (@get_links_negative_beyond sample_api sample_self "Python" (-10)%Z
           sample_facade (sample_page true "Python") sample_world);
    [reflexivity|reflexivity|reflexivity|reflexivity|].
  vm_compute. discriminate.
Defined.

Lemma get_full_article_links_as_get_links_witness :
  (returned_item "links"
     (@get_full_article long_api sample_self "Test" sample_world)
   = returned_item "links"
       (@get_links long_api sample_self "Test" (Some 20%Z) sample_world)
   /\ returned_item "links"
        (@get_full_article long_api sample_self "Test" sample_world)
      = (if page_exists (long_page "Test")
         then Some (VList (take 20 ((page_links (long_page "Test")).*1)))
         else None))
  /\ returned_item "links"
       (@get_links long_api sample_self "Test" (Some 20%Z) sample_world)
     <> returned_item "links"
          (@get_links long_api sample_self "Test" None sample_world).
Proof.
  split.
  - apply (@get_full_article_links_as_get_links long_api sample_self "Test"
             sample_facade (long_page "Test") sample_world); reflexivity.
  - vm_compute. discriminate.
Defined.

Lemma summary_and_sections_within_full_article_witness :
  (exists full summary sections : gmap string value,
     (@get_full_article sample_api sample_self "Python" sample_world).1
     = Returned full
     /\ (@get_summary sample_api sample_self "Python" sample_world).1
        = Returned summary
     /\ (@get_sections sample_api sample_self "Python" sample_world).1
        = Returned sections
     /\ summary ⊆ full
     /\ sections ⊆ full
     /\ summary <> full
     /\ sections <> full)
  /\ (exists full : gmap string value,
        (@get_full_article sample_api sample_self "Atlantis" sample_world).1
        = Returned full
        /\ (@get_summary sample_api sample_self "Atlantis" sample_world).1
           = Returned full
        /\ (@get_sections sample_api sample_self "Atlantis" sample_world).1
           = Returned full).
Proof.
  split.
  - destruct (@summary_and_sections_within_full_article sample_api sample_self
                "Python" sample_facade (sample_page true "Python") sample_world
                eq_refl eq_refl)
      as (full & summary & sections & Hfull & Hsummary & Hsections
          & Hsub & Hsub' & _).
    exists full, summary, sections. do 5 (split; [assumption|]).
    injection Hfull as <-. injection Hsummary as <-. injection Hsections as <-.
    split; intros Heq; apply (f_equal size) in Heq; vm_compute in Heq;
      discriminate Heq.
  - destruct (@summary_and_sections_within_full_article sample_api sample_self
                "Atlantis" sample_facade (sample_page false "Atlantis")
                sample_world eq_refl eq_refl)
      as (full & summary & sections & Hfull & Hsummary & Hsections
          & _ & _ & Hsame).
    destruct (Hsame eq_refl) as [-> ->]. by exists full.
Defined.

Lemma Config_set_language_overwrites_witness :
  exists w' : World,
    (Config_set_language 0 "fr";; Config_set_language 0 "de") sample_world
    = (Returned tt, w')
    /\ Config_set_language 0 "de" sample_world = (Returned tt, w')
    /\ Config_to_dict 0 w' = (Returned {[ "language" := VStr "de" ]}, w')
    /\ Config_repr 0 w' = (Returned ("Config(language='" +:+ "de" +:+ "')"), w')
    /\ (forall other : loc, other <> 0 ->
          configs w' !! other = configs sample_world !! other)
    /\ facades w' = facades sample_world.
Proof.
  apply (Config_set_language_overwrites 0 {| language := "en" |} "fr" "de"
           sample_world).
  reflexivity.
Defined.

Lemma WikiArticles_init_shares_config_witness :
  exists (self : loc) (w' : World),
    @WikiArticles_init sample_api (Some 0) sample_world = (Returned self, w')
    /\ facades sample_world !! self = None
    /\ facades w' !! self
       = Some {| config := 0;
                 wiki := {| handle_id := acquired sample_world;
                            handle_user_agent := "MyApp/1.0 (your@email.com)";
                            handle_language := language {| language := "en" |} |} |}
    /\ configs w' = configs sample_world
    /\ calls w'
       = calls sample_world
         ++ [CallWikipedia USER_AGENT (language {| language := "en" |})]
    /\ (forall other : loc, other <> self ->
          facades w' !! other = facades sample_world !! other).
Proof.
  apply (@WikiArticles_init_shares_config sample_api 0 {| language := "en" |}
           sample_world); reflexivity.
Defined.

Lemma WikiArticles_init_default_witness :
  exists (self c : loc) (w' : World),
    @WikiArticles_init sample_api None empty_world = (Returned self, w')
    /\ configs empty_world !! c = None
    /\ facades empty_world !! self = None
    /\ configs w' !! c = Some {| language := "en" |}
    /\ facades w' !! self
       = Some {| config := c;
                 wiki := {| handle_id := acquired empty_world;
                            handle_user_agent := USER_AGENT;
                            handle_language := "en" |} |}
    /\ calls w' = calls empty_world ++ [CallWikipedia USER_AGENT "en"].
Proof.
  apply (@WikiArticles_init_default sample_api empty_world). reflexivity.
Defined.

Lemma WikiArticles_init_propagates_witness :
  (@WikiArticles_init sample_api (Some 0) (Config_init "" empty_world).2).1
  = Raised (LibraryError "no language")
  /\ facades (@WikiArticles_init sample_api (Some 0)
                (Config_init "" empty_world).2).2
     = facades (Config_init "" empty_world).2
  /\ configs (@WikiArticles_init sample_api (Some 0)
                (Config_init "" empty_world).2).2
     = configs (Config_init "" empty_world).2
  /\ acquired (@WikiArticles_init sample_api (Some 0)
                 (Config_init "" empty_world).2).2
     = acquired (Config_init "" empty_world).2.
Proof.
  apply (@WikiArticles_init_propagates sample_api 0 {| language := "" |}
           (LibraryError "no language") (Config_init "" empty_world).2);
    reflexivity.
Defined.

Lemma set_language_frame_witness :
  (forall other : loc, other <> sample_self ->
     facades (@set_language sample_api sample_self "es" sample_world).2 !! other
     = facades sample_world !! other)
  /\ (forall c : loc, c <> config sample_facade ->
        configs (@set_language sample_api sample_self "es" sample_world).2 !! c
        = configs sample_world !! c)
  /\ stdout (@set_language sample_api sample_self "es" sample_world).2
     = stdout sample_world.
Proof.
  apply (@set_language_frame sample_api sample_self sample_facade
           {| language := "en" |} "es" sample_world); reflexivity.
Defined.

Lemma set_language_repeated_witness :
  exists w' : World,
    for_each (@set_language sample_api sample_self) (["fr"; "de"] ++ ["it"])
      sample_world
    = (Returned tt, w')
    /\ configs w' !! config sample_facade = Some {| language := "it" |}
    /\ facades w' !! sample_self
       = Some {| config := config sample_facade;
                 wiki := {| handle_id := acquired sample_world
                                         + length ["fr"; "de"];
                            handle_user_agent := USER_AGENT;
                            handle_language := "it" |} |}
    /\ acquired w' = acquired sample_world + S (length ["fr"; "de"])
    /\ calls w'
       = calls sample_world
         ++ (CallWikipedia USER_AGENT <$> ["fr"; "de"] ++ ["it"]).
Proof.
  apply (@set_language_repeated sample_api ["fr"; "de"] "it" sample_self
           sample_facade {| language := "en" |} sample_world);
    [reflexivity|reflexivity|].
  repeat constructor.
Defined.

Lemma main_prints_article_witness :
  ((@main long_api ["search_wiki_article.py"; "Test"] empty_world).1
   = Returned tt
   /\ stdout (@main long_api ["search_wiki_article.py"; "Test"] empty_world).2
      = stdout empty_world
        ++ ["Configuration: Config(language='" +:+ "en" +:+ "')";
            "Title: " +:+ page_title (long_page "Test");
            "URL: " +:+ page_fullurl (long_page "Test");
            newline +:+ "--- FULL ARTICLE ---";
            page_text (long_page "Test");
            newline +:+ "--- METADATA ---";
            "Total characters: "
              +:+ pretty (code_points (page_text (long_page "Test")));
            "Sections: "
              +:+ String.concat ", "
                    (take 5 (section_title <$> page_sections (long_page "Test")))
              +:+ "..."]
   /\ calls (@main long_api ["search_wiki_article.py"; "Test"] empty_world).2
      = calls empty_world
        ++ [CallWikipedia USER_AGENT "en";
            CallPage {| handle_id := 0; handle_user_agent := USER_AGENT;
                        handle_language := "en" |} "Test"])
  /\ String.length (page_text (long_page "Test")) = 4
  /\ length (page_sections (long_page "Test")) = 7
  /\ drop 6 (stdout (@main long_api ["search_wiki_article.py"; "Test"]
                       empty_world).2)
     = ["Total characters: 3";
        "Sections: Section0, Section1, Section2, Section3, Section4..."].
Proof.
  split.
  - apply (@main_prints_article long_api
             ["search_wiki_article.py"; "Test"] "Test" "en"
             {| handle_id := 0; handle_user_agent := USER_AGENT;
                handle_language := "en" |}
             (long_page "Test") empty_world); reflexivity.
  - repeat split; vm_compute; reflexivity.
Defined.

Lemma main_propagates_library_exception_witness :
  ((@main sample_api ["search_wiki_article.py"; "Python"; ""] empty_world).1
   = Raised (LibraryError "no language")
   /\ stdout (@main sample_api ["search_wiki_article.py"; "Python"; ""]
                empty_world).2
      = stdout empty_world
   /\ facades (@main sample_api ["search_wiki_article.py"; "Python"; ""]
                 empty_world).2
      = facades empty_world)
  /\ ((@main sample_api ["search_wiki_article.py"; "Offline"] empty_world).1
      = Raised (LibraryError "timeout")
      /\ stdout (@main sample_api ["search_wiki_article.py"; "Offline"]
                   empty_world).2
         = stdout empty_world
           ++ ["Configuration: Config(language='" +:+ "en" +:+ "')"]).
Proof.
  split.
  - apply (@main_propagates_library_exception sample_api
             ["search_wiki_article.py"; "Python"; ""] "Python" ""
             (LibraryError "no language") empty_world); reflexivity.
  - apply (@main_propagates_library_exception sample_api
             ["search_wiki_article.py"; "Offline"] "Offline" "en"
             (LibraryError "timeout") empty_world); reflexivity.
Defined.
